(** * HAProxy backend-member reconciliation (network/haproxy.py)

    A shallow embedding of the Ansible [haproxy] module: the socket
    transport ([execute]), the statistics snapshot parser
    ([get_stat_output], [get_host_stat_line], [get_host_attribute]), the
    weight policy ([is_weight_changed]) and the decision logic ([enabled],
    [disabled], [act], [main]), followed by the properties proved about
    them. *)

From Stdlib Require Import String Ascii List Bool Arith Lia.
From Stdlib Require Import DecimalString.
Import ListNotations.
Local Open Scope list_scope.
Local Open Scope string_scope.

(** ** Python string primitives used by the module *)

Module Py.

(** [s.split(sep)] for a one-character separator: never returns the
    empty list, and keeps empty fields. *)
Fixpoint split (sep : ascii) (s : string) : list string :=
  match s with
  | EmptyString => [EmptyString]
  | String c s' =>
      if Ascii.eqb c sep then EmptyString :: split sep s'
      else match split sep s' with
           | [] => [String c EmptyString]
           | w :: ws => String c w :: ws
           end
  end.

(** [s.lstrip(chars)]: drop the leading characters that satisfy [p]. *)
Fixpoint lstrip (p : ascii -> bool) (s : string) : string :=
  match s with
  | EmptyString => EmptyString
  | String c s' => if p c then lstrip p s' else s
  end.

(** [s.rstrip(chars)]: drop the trailing characters that satisfy [p]. *)
Fixpoint rstrip (p : ascii -> bool) (s : string) : string :=
  match s with
  | EmptyString => EmptyString
  | String c s' =>
      match rstrip p s' with
      | EmptyString => if p c then EmptyString else String c EmptyString
      | r => String c r
      end
  end.

(** The characters [str.strip()] removes: space, \t, \n, \v, \f, \r. *)
Definition is_space (c : ascii) : bool :=
  let n := nat_of_ascii c in
  ((n =? 32) || ((9 <=? n) && (n <=? 13)))%nat.

(** [s.strip()] *)
Definition strip (s : string) : string := lstrip is_space (rstrip is_space s).

(** Membership of a character in the argument of [lstrip('# ')]. *)
Definition in_chars (chars : string) (c : ascii) : bool :=
  existsb (Ascii.eqb c) (list_ascii_of_string chars).

(** [str(x)] as done by a [%s] conversion on a value that is either a
    string or [None]. *)
Definition str (x : option string) : string :=
  match x with
  | Some s => s
  | None => "None"
  end.

(** Values a module parameter without a declared type can hold here:
    the Python default [False] (or [True]), or the text the caller gave. *)
Inductive value :=
| Bool (b : bool)
| Str (s : string).

(** Truth value of [if x:]. *)
Definition truthy (x : value) : bool :=
  match x with
  | Bool b => b
  | Str s => negb (s =? "")
  end.

End Py.

Definition LF : string := String (ascii_of_nat 10) EmptyString.
Definition lf : ascii := ascii_of_nat 10.
Definition comma : ascii := ","%char.

(** ** Module constants *)

Definition DEFAULT_SOCKET_LOCATION : string := "/var/run/haproxy.sock".
Definition RECV_SIZE : nat := 1024.
Definition ACTION_CHOICES : list string := ["enabled"; "disabled"].

(** ** The HAProxy object *)

(** Fields set by [HAProxy.__init__], plus [module.check_mode].
    [command_results] starts as the empty list ([None] here) and holds the
    stripped text of the last logged exchange afterwards; [host_attributes]
    starts as the empty list and is later whatever [get_host_stat_line]
    returned, possibly Python's [None]. *)
Record HAProxy := mkHAProxy {
  state : string;
  host : string;
  backend : option string;
  weight : option string;
  socket : string;
  shutdown_sessions : Py.value;
  check_mode : bool;
  command_results : option string;
  host_attributes : option (list string)
}.

Definition set_backend (b : option string) (h : HAProxy) : HAProxy :=
  mkHAProxy (state h) (host h) b (weight h) (socket h) (shutdown_sessions h)
            (check_mode h) (command_results h) (host_attributes h).

Definition set_command_results (r : option string) (h : HAProxy) : HAProxy :=
  mkHAProxy (state h) (host h) (backend h) (weight h) (socket h)
            (shutdown_sessions h) (check_mode h) r (host_attributes h).

Definition set_host_attributes (a : option (list string)) (h : HAProxy) : HAProxy :=
  mkHAProxy (state h) (host h) (backend h) (weight h) (socket h)
            (shutdown_sessions h) (check_mode h) (command_results h) a.

Definition set_check_mode (c : bool) (h : HAProxy) : HAProxy :=
  mkHAProxy (state h) (host h) (backend h) (weight h) (socket h)
            (shutdown_sessions h) c (command_results h) (host_attributes h).

(** ** Exceptions and results *)

(** What can end a call abnormally. [ExitJson] and [FailJson] are the two
    ways [AnsibleModule] ends the process ([exit_json], [fail_json]);
    [ArgSpecRejected] is the failure [AnsibleModule] itself reports when a
    parameter violates the argument spec; the others are Python exceptions
    nothing in the module catches. *)
Inductive exn :=
| TypeError
| IndexError
| SocketError
| ExitJson (stdout : option string) (changed : bool)
| FailJson (msg : string).

(** Result of a method that only reads the object. *)
Inductive res (A : Type) :=
| Ok (a : A)
| Err (e : exn).
Arguments Ok {A} a.
Arguments Err {A} e.

Definition res_bind {A B} (r : res A) (k : A -> res B) : res B :=
  match r with
  | Ok a => k a
  | Err e => Err e
  end.

(** ** Snapshot parsing and the weight policy (read-only methods) *)

Definition attributes : list (string * nat) :=
  [("pxname", 0); ("status", 17); ("weight", 18)].

(** [dict.get] *)
Fixpoint dict_get (d : list (string * nat)) (name : string) : option nat :=
  match d with
  | [] => None
  | (k, v) :: d' => if k =? name then Some v else dict_get d' name
  end.

Definition get_host_attribute (name : string) (self : HAProxy) : res string :=
  match host_attributes self with
  | None => Err TypeError
  | Some attrs =>
      match dict_get attributes name with
      | None => Err TypeError
      | Some i =>
          match nth_error attrs i with
          | Some v => Ok v
          | None => Err IndexError
          end
      end
  end.

Definition is_host_in_maintanence_mode (self : HAProxy) : res bool :=
  res_bind (get_host_attribute "status" self) (fun status =>
  Ok (status =? "MAINT")).

Definition get_backend (self : HAProxy) : res string :=
  get_host_attribute "pxname" self.

Definition get_current_weight (self : HAProxy) : res string :=
  get_host_attribute "weight" self.

Fixpoint get_host_stat_line (host : string) (stat_output : list string)
  : res (option (list string)) :=
  match stat_output with
  | [] => Ok None
  | line :: rest =>
      let line_parts := Py.split comma line in
      match nth_error line_parts 1 with
      | None => Err IndexError
      | Some svname =>
          if svname =? host then Ok (Some line_parts)
          else get_host_stat_line host rest
      end
  end.

Definition is_weight_changed (weight : option string) (self : HAProxy) : res bool :=
  match weight with
  | None => Ok false
  | Some weight =>
      res_bind (get_current_weight self) (fun current_weight =>
      if (weight =? "100%") && (current_weight =? "1") then Ok false
      else if (weight =? "0%") && (current_weight =? "0") then Ok false
      else Ok (negb (weight =? current_weight)))
  end.

(** ** The administrative socket *)

(** One [recv] call: a chunk of the reply (the empty chunk is end of
    stream), or a socket error. *)
Inductive recv_result :=
| Chunk (buf : string)
| RecvFail.

(** The peer behind the UNIX socket. [peer_connect w path] is [None] when
    [connect] raises ([socket.error]: path missing, permission denied,
    refused). [peer_sendall w data] is [None] when [sendall] raises;
    otherwise it gives the peer's next state and what the following [recv]
    calls return, in order; after the last one the stream is at its end. *)
Record Peer (World : Type) := mkPeer {
  peer_connect : World -> string -> option World;
  peer_sendall : World -> string -> option (World * list recv_result)
}.
Arguments peer_connect {World} p w path.
Arguments peer_sendall {World} p w data.

(** Calls made on socket objects, in program order. *)
Inductive event :=
| EvSocket
| EvConnect (path : string)
| EvSendall (data : string)
| EvRecv
| EvClose.

Section Engine.

Variable World : Type.
Variable peer : Peer World.

(** The state a method runs in: the object, the peer, and the socket
    calls made so far. *)
Record St := mkSt {
  self : HAProxy;
  net : World;
  trace : list event
}.

Inductive outcome (A : Type) :=
| Done (a : A) (st : St)
| Raised (e : exn) (st : St).
Arguments Done {A} a st.
Arguments Raised {A} e st.

Definition M (A : Type) : Type := St -> outcome A.

Definition ret {A} (a : A) : M A := fun st => Done a st.

Definition bind {A B} (m : M A) (k : A -> M B) : M B :=
  fun st =>
    match m st with
    | Done a st' => k a st'
    | Raised e st' => Raised e st'
    end.

Definition raise {A} (e : exn) : M A := fun st => Raised e st.

Definition lift {A} (r : res A) : M A :=
  match r with
  | Ok a => ret a
  | Err e => raise e
  end.

Definition get_self : M HAProxy := fun st => Done (self st) st.

Definition modify_self (f : HAProxy -> HAProxy) : M unit :=
  fun st => Done tt (mkSt (f (self st)) (net st) (trace st)).

Definition get_net : M World := fun st => Done (net st) st.

Definition put_net (w : World) : M unit :=
  fun st => Done tt (mkSt (self st) w (trace st)).

Definition emit (e : event) : M unit :=
  fun st => Done tt (mkSt (self st) (net st) (trace st ++ [e])%list).

Notation "x <- c1 ;; c2" := (bind c1 (fun x => c2))
  (at level 61, c1 at next level, right associativity).
Notation "c1 ;;; c2" := (bind c1 (fun _ => c2))
  (at level 61, right associativity).

(** The [while buf:] loop of [execute], entered with the reply still to
    come; every step is one [recv] call. *)
Fixpoint recv_loop (script : list recv_result) (result : string) : M string :=
  match script with
  | [] => emit EvRecv ;;; ret result
  | Chunk EmptyString :: _ => emit EvRecv ;;; ret result
  | Chunk buf :: rest => emit EvRecv ;;; recv_loop rest (result ++ buf)
  | RecvFail :: _ => emit EvRecv ;;; raise SocketError
  end.

Definition execute (cmd : string) (log : bool) : M string :=
  emit EvSocket ;;;
  h <- get_self ;;
  w <- get_net ;;
  emit (EvConnect (socket h)) ;;;
  match peer_connect peer w (socket h) with
  | None => raise SocketError
  | Some w1 =>
      put_net w1 ;;;
      emit (EvSendall (cmd ++ LF)) ;;;
      match peer_sendall peer w1 (cmd ++ LF) with
      | None => raise SocketError
      | Some (w2, script) =>
          put_net w2 ;;;
          result <- recv_loop script "" ;;
          (if log
           then modify_self (set_command_results (Some (Py.strip result)))
           else ret tt) ;;;
          emit EvClose ;;;
          ret result
      end
  end.

Definition get_weight_cmd (pxname : option string) (svname : string) : string :=
  "get weight " ++ Py.str pxname ++ "/" ++ svname.

Definition enabled : M bool :=
  h <- get_self ;;
  let svname := host h in
  let pxname := backend h in
  let cmd := get_weight_cmd pxname svname in
  weight_changed <- lift (is_weight_changed (weight h) h) ;;
  status_changed <- lift (is_host_in_maintanence_mode h) ;;
  if negb weight_changed && negb status_changed then
    execute cmd true ;;; ret false
  else if check_mode h then
    execute cmd true ;;; ret true
  else
    let cmd :=
      if weight_changed
      then cmd ++ "; set weight " ++ Py.str pxname ++ "/" ++ svname
               ++ " " ++ Py.str (weight h)
      else cmd in
    let cmd :=
      if status_changed
      then cmd ++ "; enable server " ++ Py.str pxname ++ "/" ++ svname
      else cmd in
    execute cmd true ;;; ret true.

Definition disabled : M bool :=
  h <- get_self ;;
  let svname := host h in
  let pxname := backend h in
  let cmd := get_weight_cmd pxname svname in
  in_maintenance <- lift (is_host_in_maintanence_mode h) ;;
  if in_maintenance then
    execute cmd true ;;; ret false
  else if check_mode h then
    execute cmd true ;;; ret true
  else
    let cmd := cmd ++ "; disable server " ++ Py.str pxname ++ "/" ++ svname in
    let cmd :=
      if Py.truthy (shutdown_sessions h)
      then cmd ++ "; shutdown sessions server " ++ Py.str pxname ++ "/" ++ svname
      else cmd in
    execute cmd true ;;; ret true.

(** The [log] argument is accepted and not passed on, as in the source:
    the exchange is logged like every other one. *)
Definition get_stat_output (log : bool) : M (list string) :=
  output <- execute "show stat" true ;;
  ret (Py.split lf (Py.strip (Py.lstrip (Py.in_chars "# ") output))).

Definition fail_json {A} (msg : string) : M A := raise (FailJson msg).

Definition exit_json {A} (stdout : option string) (changed : bool) : M A :=
  raise (ExitJson stdout changed).

Definition act : M unit :=
  stat_output <- get_stat_output false ;;
  h <- get_self ;;
  found <- lift (get_host_stat_line (host h) stat_output) ;;
  modify_self (set_host_attributes found) ;;;
  h <- get_self ;;
  (match backend h with
   | None =>
       pxname <- lift (get_backend h) ;;
       modify_self (set_backend (Some pxname))
   | Some _ => ret tt
   end) ;;;
  h <- get_self ;;
  changed <-
    (if state h =? "enabled" then enabled
     else if state h =? "disabled" then disabled
     else fail_json ("unknown state specified: '" ++ state h ++ "'")) ;;
  h <- get_self ;;
  exit_json (command_results h) changed.

End Engine.

Arguments mkSt {World} self net trace.
Arguments self {World} s.
Arguments net {World} s.
Arguments trace {World} s.
Arguments Done {World A} a st.
Arguments Raised {World A} e st.
Arguments execute {World} peer cmd log st.
Arguments enabled {World} peer st.
Arguments disabled {World} peer st.
Arguments get_stat_output {World} peer log st.
Arguments act {World} peer st.

(** ** Entry point *)

(** The parameters as the caller gave them ([None]: not given), and
    whether Ansible runs the module in check mode. *)
Record Params := mkParams {
  p_state : option string;
  p_host : option string;
  p_backend : option string;
  p_weight : option string;
  p_socket : option string;
  p_shutdown_sessions : option Py.value;
  p_check_mode : bool
}.

(** How a run of [main] ends: [AnsibleModule] refuses a parameter against
    the [argument_spec] (it reports the failure itself and stops the
    process), or the object is built and [act] runs. *)
Inductive main_result (World : Type) :=
| Rejected (param : string)
| Ran (o : outcome World unit).
Arguments Rejected {World} param.
Arguments Ran {World} o.

(** [L.index]-free membership test of [choices]. *)
Definition in_choices (choices : list string) (v : string) : bool :=
  existsb (String.eqb v) choices.

(** [HAProxy.__init__] on the parameters after defaults are applied. *)
Definition init (st host : string) (p : Params) : HAProxy :=
  mkHAProxy st host (p_backend p) (p_weight p)
    (match p_socket p with Some s => s | None => DEFAULT_SOCKET_LOCATION end)
    (match p_shutdown_sessions p with Some v => v | None => Py.Bool false end)
    (p_check_mode p)
    None
    (Some []).

(** [main]: the argument spec makes [state] and [host] required and
    restricts [state] to [ACTION_CHOICES]; [weight], [backend], [socket] and
    [shutdown_sessions] are passed through unchecked. The test
    [if not socket] is on the imported [socket] module, which is always
    true, so that branch is never taken. *)
Definition main {World} (peer : Peer World) (p : Params) (w : World)
  : main_result World :=
  match p_state p with
  | None => Rejected "state"
  | Some st =>
      match p_host p with
      | None => Rejected "host"
      | Some host =>
          if in_choices ACTION_CHOICES st
          then Ran (act peer (mkSt (init st host p) w []))
          else Rejected "state"
      end
  end.

(** ** Reading a trace *)

(** The lines handed to [sendall], in order. *)
Fixpoint sent (tr : list event) : list string :=
  match tr with
  | [] => []
  | EvSendall data :: tr' => data :: sent tr'
  | _ :: tr' => sent tr'
  end.

(** Number of occurrences of an event kind. *)
Definition opened (tr : list event) : nat :=
  length (filter (fun e => match e with EvSocket => true | _ => false end) tr).

Definition closed (tr : list event) : nat :=
  length (filter (fun e => match e with EvClose => true | _ => false end) tr).

(** A trace read as a sequence of round trips. The scanner is in one of
    these phases of the cycle socket / connect / sendall / recv.. / close. *)
Inductive phase := Idle | Opened | Connected | Sent | Receiving.

(** [scan ph n tr] is [Some m] when [tr], read from phase [ph] with [n]
    cycles completed, is well formed and ends between cycles with [m]
    completed; [None] otherwise. *)
Fixpoint scan (ph : phase) (n : nat) (tr : list event) : option nat :=
  match tr with
  | [] => match ph with Idle => Some n | _ => None end
  | e :: tr' =>
      match ph, e with
      | Idle, EvSocket => scan Opened n tr'
      | Opened, EvConnect _ => scan Connected n tr'
      | Connected, EvSendall _ => scan Sent n tr'
      | Sent, EvRecv => scan Receiving n tr'
      | Receiving, EvRecv => scan Receiving n tr'
      | Receiving, EvClose => scan Idle (S n) tr'
      | _, _ => None
      end
  end.

(** Number of complete connect/send/receive/close cycles of a trace made
    of such cycles only. *)
Definition round_trips (tr : list event) : option nat := scan Idle 0 tr.

(** The events of one complete exchange with [k] calls of [recv]. *)
Definition cycle (path data : string) (k : nat) : list event :=
  EvSocket :: EvConnect path :: EvSendall data :: (repeat EvRecv k ++ [EvClose])%list.

(** ** A load balancer behind the socket

    An executable peer for concrete runs: a list of pool members that
    answers the commands of the administrative protocol the module sends
    ([show stat], [get weight], [set weight], [enable server],
    [disable server], [shutdown sessions server]), composite lines being
    split at [;]. Weights follow the module's DOCUMENTATION: a value
    ending in [%] is relative to the initially configured weight and must
    be within 0..100, an absolute one within 0..256. The statistics dump
    has the pool name in column 0, the member name in column 1, the status
    in column 17 and the weight in column 18. *)

Module Balancer.

Record server := mkServer {
  pxname : string;
  svname : string;
  iweight : nat;
  uweight : nat;
  maint : bool
}.

Record world := mkWorld {
  listening : string;
  servers : list server
}.

Definition dec (n : nat) : string := NilZero.string_of_uint (Nat.to_uint n).

Definition undec (s : string) : option nat :=
  option_map Nat.of_uint (NilZero.uint_of_string s).

Definition stat_header : string :=
  "# pxname,svname,qcur,qmax,scur,smax,slim,stot,bin,bout,dreq,dresp,"
  ++ "ereq,econ,eresp,wretr,wredis,status,weight,act,bck," ++ LF.

Definition stat_line (s : server) : string :=
  pxname s ++ "," ++ svname s ++ ",0,0,0,0,,0,0,0,,0,,0,0,0,0,"
  ++ (if maint s then "MAINT" else "UP") ++ "," ++ dec (uweight s)
  ++ ",1,0," ++ LF.

Definition show_stat (w : world) : string :=
  stat_header ++ String.concat "" (map stat_line (servers w)) ++ LF.

Definition is_target (target : string) (s : server) : bool :=
  target =? (pxname s ++ "/" ++ svname s).

Definition find (target : string) (w : world) : option server :=
  List.find (is_target target) (servers w).

Definition update (target : string) (f : server -> server) (w : world) : world :=
  mkWorld (listening w)
          (map (fun s => if is_target target s then f s else s) (servers w)).

Definition set_uweight (n : nat) (s : server) : server :=
  mkServer (pxname s) (svname s) (iweight s) n (maint s).

Definition set_maint (b : bool) (s : server) : server :=
  mkServer (pxname s) (svname s) (iweight s) (uweight s) b.

(** The text before a final [%], if there is one. *)
Fixpoint percent (v : string) : option string :=
  match v with
  | EmptyString => None
  | String c EmptyString => if Ascii.eqb c "%" then Some EmptyString else None
  | String c v' => option_map (String c) (percent v')
  end.

Definition set_weight (target v : string) (w : world) : world * string :=
  match find target w with
  | None => (w, "No such server." ++ LF)
  | Some s =>
      match percent v with
      | Some digits =>
          match undec digits with
          | Some n =>
              if (n <=? 100)%nat
              then (update target (set_uweight (iweight s * n / 100)) w, LF)
              else (w, "Relative weight can only be set between 0 and 100% inclusive." ++ LF)
          | None => (w, "Require <weight> or <weight%>." ++ LF)
          end
      | None =>
          match undec v with
          | Some n =>
              if (n <=? 256)%nat
              then (update target (set_uweight n) w, LF)
              else (w, "Absolute weight can only be between 0 and 256 inclusive." ++ LF)
          | None => (w, "Require <weight> or <weight%>." ++ LF)
          end
      end
  end.

(** One command of a line. *)
Definition command (cmd : string) (w : world) : world * string :=
  match Py.split " "%char (Py.lstrip (Py.in_chars " ") cmd) with
  | ["show"; "stat"] => (w, show_stat w)
  | ["get"; "weight"; target] =>
      match find target w with
      | Some s => (w, dec (uweight s) ++ " (initial " ++ dec (iweight s) ++ ")" ++ LF ++ LF)
      | None => (w, "No such server." ++ LF)
      end
  | ["set"; "weight"; target; v] => set_weight target v w
  | ["enable"; "server"; target] =>
      match find target w with
      | Some _ => (update target (set_maint false) w, LF)
      | None => (w, "No such server." ++ LF)
      end
  | ["disable"; "server"; target] =>
      match find target w with
      | Some _ => (update target (set_maint true) w, LF)
      | None => (w, "No such server." ++ LF)
      end
  | ["shutdown"; "sessions"; "server"; target] =>
      match find target w with
      | Some _ => (w, LF)
      | None => (w, "No such server." ++ LF)
      end
  | _ => (w, "Unknown command." ++ LF)
  end.

Fixpoint commands (cmds : list string) (w : world) : world * string :=
  match cmds with
  | [] => (w, EmptyString)
  | c :: cs =>
      let (w1, r1) := command c w in
      let (w2, r2) := commands cs w1 in
      (w2, r1 ++ r2)
  end.

(** Cut a reply into the pieces successive [recv (RECV_SIZE)] calls
    return. *)
Fixpoint chunks (fuel : nat) (reply : string) : list recv_result :=
  match fuel with
  | 0 => []
  | S fuel' =>
      if (String.length reply <=? RECV_SIZE)%nat
      then (if reply =? "" then [] else [Chunk reply])
      else Chunk (substring 0 RECV_SIZE reply)
           :: chunks fuel' (substring RECV_SIZE (String.length reply - RECV_SIZE) reply)
  end.

Definition connect (w : world) (path : string) : option world :=
  if path =? listening w then Some w else None.

Definition sendall (w : world) (data : string) : option (world * list recv_result) :=
  let line := Py.rstrip (Py.in_chars LF) data in
  let (w', reply) := commands (Py.split ";"%char line) w in
  Some (w', chunks (S (String.length reply)) reply).

Definition peer : Peer world := mkPeer world connect sendall.

End Balancer.

(** A peer whose [connect] succeeds and whose [sendall] raises. *)
Definition broken_pipe : Peer unit :=
  mkPeer unit (fun w _ => Some w) (fun _ _ => None).

(** A peer that sends one chunk and then fails the next [recv]. *)
Definition reset_by_peer : Peer unit :=
  mkPeer unit (fun w _ => Some w) (fun w _ => Some (w, [Chunk "# px"; RecvFail])).

Arguments ret {World A} a st.
Arguments bind {World A B} m k st.
Arguments raise {World A} e st.
Arguments lift {World A} r st.
Arguments recv_loop {World} script result st.
Arguments get_self {World} st.
Arguments modify_self {World} f st.
Arguments get_net {World} st.
Arguments put_net {World} w st.
Arguments emit {World} e st.
Arguments fail_json {World A} msg st.
Arguments exit_json {World A} stdout changed st.

(** ** Vocabulary of the properties *)

(** The weight policy in the words of its contract: no request, an equal
    string, or one of the two literal equivalences means no change. *)
Definition isChangeNeeded (requested : option string) (current : string) : bool :=
  match requested with
  | None => false
  | Some r =>
      if r =? current then false
      else if (r =? "100%") && (current =? "1") then false
      else if (r =? "0%") && (current =? "0") then false
      else true
  end.

(** [pool/member], as every command names its target. *)
Definition target (pxname : option string) (svname : string) : string :=
  Py.str pxname ++ "/" ++ svname.

(** The sub-commands of the composite for [enabled], in order. *)
Definition enabled_subcommands (pxname : option string) (svname : string)
    (weight : option string) (weight_changed in_maintenance : bool) : list string :=
  ("get weight " ++ target pxname svname)
  :: List.app
       (if weight_changed
        then ["set weight " ++ target pxname svname ++ " " ++ Py.str weight]
        else [])
       (if in_maintenance
        then ["enable server " ++ target pxname svname]
        else []).

(** The sub-commands of the composite for [disabled], in order. *)
Definition disabled_subcommands (pxname : option string) (svname : string)
    (shutdown : bool) : list string :=
  List.app
    ["get weight " ++ target pxname svname;
     "disable server " ++ target pxname svname]
    (if shutdown
     then ["shutdown sessions server " ++ target pxname svname]
     else []).

(** Sub-commands joined into the one line that is sent. *)
Definition composite (subcommands : list string) : string :=
  String.concat "; " subcommands.

(** Run [m] and, if it returns, return [b]. *)
Definition then_ret {World A B} (m : M World A) (b : B) : M World B :=
  bind m (fun _ => ret b).

(** The same object, in live mode. *)
Definition live {World} (st : St World) : St World :=
  mkSt (set_check_mode false (self st)) (net st) (trace st).

(** ** Concrete pools *)

(** Member [web1] is in two pools, drained in [www]; [web2] carries a
    configured weight of 100. *)
Definition pool : Balancer.world :=
  Balancer.mkWorld DEFAULT_SOCKET_LOCATION
    [Balancer.mkServer "www" "web1" 1 1 true;
     Balancer.mkServer "api" "web1" 1 1 false;
     Balancer.mkServer "www" "web2" 100 100 false].

(** The same pool behind another socket path. *)
Definition pool_elsewhere : Balancer.world :=
  Balancer.mkWorld "/run/haproxy/admin.sock" (Balancer.servers pool).

Definition request (st host : string) (weight : option string)
    (shutdown : option Py.value) (check : bool) : Params :=
  mkParams (Some st) (Some host) None weight None shutdown check.

(** An object as [main] builds it, before [act] has run. *)
Definition fresh (st host : string) (weight : option string)
    (shutdown : option Py.value) (check : bool) (w : Balancer.world)
  : St Balancer.world :=
  mkSt (init st host (request st host weight shutdown check)) w [].

(** The object after the Load step of [act] found [attrs], with the pool
    name [px]. *)
Definition loaded (st host px : string) (weight : option string)
    (shutdown : Py.value) (check : bool) (attrs : list string)
    (w : Balancer.world) : St Balancer.world :=
  mkSt (mkHAProxy st host (Some px) weight DEFAULT_SOCKET_LOCATION shutdown
          check None (Some attrs)) w [].

(** A statistics record with the three fields the module reads. *)
Definition record (px sv status weight : string) : list string :=
  px :: sv :: List.app (repeat "0" 15) [status; weight; ""].

(** What a run reported, if it reported. *)
Definition reported {World} (r : main_result World) : option (option string * bool) :=
  match r with
  | Ran (Raised (ExitJson out changed) _) => Some (out, changed)
  | _ => None
  end.

(** The peer as a run left it. *)
Definition peer_after {World} (r : main_result World) : option World :=
  match r with
  | Ran (Raised _ st) => Some (net st)
  | Ran (Done _ st) => Some (net st)
  | Rejected _ => None
  end.

(** The socket calls of a run. *)
Definition calls {World} (r : main_result World) : list event :=
  match r with
  | Ran (Raised _ st) => trace st
  | Ran (Done _ st) => trace st
  | Rejected _ => []
  end.

(** Two runs of the same request in succession, the second against the
    peer as the first left it: what the second reports. *)
Definition second_run {World} (peer : Peer World) (p : Params) (w : World)
  : option (option string * bool) :=
  match peer_after (main peer p w) with
  | Some w' => reported (main peer p w')
  | None => None
  end.

(** What an interrupted exchange leaves in the trace: it stopped at
    [connect], at [sendall], or at one of the [recv] calls. *)
Inductive interrupted (path data : string) : list event -> Prop :=
| at_connect : interrupted path data [EvSocket; EvConnect path]
| at_sendall : interrupted path data [EvSocket; EvConnect path; EvSendall data]
| at_recv k :
    interrupted path data
      (EvSocket :: EvConnect path :: EvSendall data :: repeat EvRecv (S k)).

(** The state and the trace an outcome carries. *)
Definition final {World A} (o : outcome World A) : St World :=
  match o with
  | Done _ st => st
  | Raised _ st => st
  end.

(** The steps of [act], named: the object after the lookup stored its
    result, after the pool name was taken from the record, and the branch
    on the desired state with the final report. *)
Definition after_load {World} (found : option (list string)) (st : St World)
  : St World :=
  mkSt (set_host_attributes found (self st)) (net st) (trace st).

Definition with_backend {World} (px : string) (st : St World) : St World :=
  mkSt (set_backend (Some px) (self st)) (net st) (trace st).

Definition report {World} (o : outcome World bool) : outcome World unit :=
  match o with
  | Done changed st => Raised (ExitJson (command_results (self st)) changed) st
  | Raised e st => Raised e st
  end.

Definition dispatch {World} (peer : Peer World) (st : St World)
  : outcome World unit :=
  if state (self st) =? "enabled" then report (enabled peer st)
  else if state (self st) =? "disabled" then report (disabled peer st)
  else Raised (FailJson ("unknown state specified: '" ++ state (self st) ++ "'")) st.

(** The pure content of [act] between its two exchanges. [load] is the
    Load step on the text of the statistics reply: the object afterwards,
    and the exception that stopped it, if any. [decision] is the branch on
    the desired state: the [changed] flag and the sub-commands of the line
    that is sent. *)
Definition stat_lines (output : string) : list string :=
  Py.split lf (Py.strip (Py.lstrip (Py.in_chars "# ") output)).

Definition load (h : HAProxy) (output : string) : HAProxy * option exn :=
  match get_host_stat_line (host h) (stat_lines output) with
  | Err e => (h, Some e)
  | Ok found =>
      let h1 := set_host_attributes found h in
      match backend h1 with
      | Some _ => (h1, None)
      | None =>
          match get_backend h1 with
          | Ok px => (set_backend (Some px) h1, None)
          | Err e => (h1, Some e)
          end
      end
  end.

Definition decision (h : HAProxy) : res (bool * list string) :=
  let px := backend h in
  let sv := host h in
  let query := ["get weight " ++ target px sv] in
  if state h =? "enabled" then
    res_bind (is_weight_changed (weight h) h) (fun weight_changed =>
    res_bind (is_host_in_maintanence_mode h) (fun in_maintenance =>
    Ok (weight_changed || in_maintenance,
        if (weight_changed || in_maintenance) && negb (check_mode h)
        then enabled_subcommands px sv (weight h) weight_changed in_maintenance
        else query)))
  else if state h =? "disabled" then
    res_bind (is_host_in_maintanence_mode h) (fun in_maintenance =>
    Ok (negb in_maintenance,
        if negb in_maintenance && negb (check_mode h)
        then disabled_subcommands px sv (Py.truthy (shutdown_sessions h))
        else query))
  else Err (FailJson ("unknown state specified: '" ++ state h ++ "'")).

Definition with_self {World} (h : HAProxy) (st : St World) : St World :=
  mkSt h (net st) (trace st).

(** No record of the dump carries [host] in field 1. *)
Definition absent (host : string) (lines : list string) : Prop :=
  Forall (fun line => nth_error (Py.split comma line) 1 <> Some host) lines.

(** An outcome with its object put in live mode. *)
Definition relive {World A} (o : outcome World A) : outcome World A :=
  match o with
  | Done a st => Done a (live st)
  | Raised e st => Raised e (live st)
  end.

(** The paths handed to [connect], in order. *)
Fixpoint connects (tr : list event) : list string :=
  match tr with
  | [] => []
  | EvConnect path :: tr' => path :: connects tr'
  | _ :: tr' => connects tr'
  end.

(** A peer that accepts every connection and answers every line with the
    same sequence of [recv] results. *)
Definition canned (script : list recv_result) : Peer unit :=
  mkPeer unit (fun w _ => Some w) (fun w _ => Some (w, script)).

(** A request that names the pool. *)
Definition request_in (st host px : string) (weight : option string)
    (shutdown : option Py.value) (check : bool) : Params :=
  mkParams (Some st) (Some host) (Some px) weight None shutdown check.

(** The pool name [act] works with once a record is found: the one given,
    or else field 0 of the record. *)
Definition pool_of (h : HAProxy) (attrs : list string) : string :=
  match backend h with
  | Some b => b
  | None => hd "" attrs
  end.

(** A string without the character [c]. *)
Definition free_of (c : ascii) (s : string) : Prop :=
  Forall (fun x => Ascii.eqb x c = false) (list_ascii_of_string s).

(** A sub-command on the one target [px/member]: one of the five verbs of
    the module applied to it, [set weight] with the requested weight. *)
Inductive on_target (px member : string) (weight : option string)
  : string -> Prop :=
| get_weight_on :
    on_target px member weight ("get weight " ++ target (Some px) member)
| set_weight_on :
    on_target px member weight
      ("set weight " ++ target (Some px) member ++ " " ++ Py.str weight)
| enable_server_on :
    on_target px member weight ("enable server " ++ target (Some px) member)
| disable_server_on :
    on_target px member weight ("disable server " ++ target (Some px) member)
| shutdown_sessions_on :
    on_target px member weight
      ("shutdown sessions server " ++ target (Some px) member).

(** A string whose first character is neither white space nor part of the
    comment marker, and a string whose last character is not white space. *)
Definition starts_clean (s : string) : Prop :=
  exists c s', s = String c s'
               /\ Py.is_space c = false /\ Py.in_chars "# " c = false.

Definition ends_clean (s : string) : Prop :=
  exists b c, s = b ++ String c "" /\ Py.is_space c = false.

(** * Properties *)

(** ** Strings *)

Lemma append_assoc (a b c : string) : (a ++ b) ++ c = a ++ b ++ c.
Proof.
  induction a as [|x a IH]; simpl; [reflexivity | now rewrite IH].
Qed.

Lemma append_nil_r (a : string) : a ++ "" = a.
Proof.
  induction a as [|x a IH]; simpl; [reflexivity | now rewrite IH].
Qed.

Lemma split_nonempty (sep : ascii) (s : string) : Py.split sep s <> [].
Proof.
  destruct s as [|c s]; simpl; [discriminate|].
  destruct (Ascii.eqb c sep); [discriminate|].
  destruct (Py.split sep s); discriminate.
Qed.

(** ** The weight policy *)

Lemma get_host_attribute_weight self attrs :
  host_attributes self = Some attrs ->
  get_current_weight self =
    match nth_error attrs 18 with Some v => Ok v | None => Err IndexError end.
Proof.
  intros H. unfold get_current_weight, get_host_attribute. now rewrite H.
Qed.

Lemma get_host_attribute_status self attrs :
  host_attributes self = Some attrs ->
  is_host_in_maintanence_mode self =
    match nth_error attrs 17 with
    | Some v => Ok (v =? "MAINT")
    | None => Err IndexError
    end.
Proof.
  intros H. unfold is_host_in_maintanence_mode, get_host_attribute.
  rewrite H. change (dict_get attributes "status") with (Some 17).
  cbv beta iota. now destruct (nth_error attrs 17).
Qed.

Lemma get_host_attribute_pxname self attrs :
  host_attributes self = Some attrs ->
  get_backend self =
    match nth_error attrs 0 with Some v => Ok v | None => Err IndexError end.
Proof.
  intros H. unfold get_backend, get_host_attribute. now rewrite H.
Qed.

(** The method computes the policy of the contract. *)
Lemma is_weight_changed_refines self attrs requested current :
  host_attributes self = Some attrs ->
  nth_error attrs 18 = Some current ->
  is_weight_changed requested self = Ok (isChangeNeeded requested current).
Proof.
  intros Ha Hw. destruct requested as [r|]; simpl; [|reflexivity].
  rewrite (get_host_attribute_weight _ _ Ha), Hw. simpl.
  destruct (String.eqb_spec r current) as [->|Hne].
  - destruct (_ && _); [reflexivity|]. now destruct (_ && _).
  - destruct (_ && _); [reflexivity|]. now destruct (_ && _).
Qed.

Lemma isChangeNeeded_false requested current :
  isChangeNeeded requested current = false <->
  (requested = None \/ requested = Some current
   \/ (requested = Some "100%" /\ current = "1")
   \/ (requested = Some "0%" /\ current = "0")).
Proof.
  destruct requested as [r|]; simpl.
  - destruct (String.eqb_spec r current) as [->|Hne].
    + split; auto.
    + destruct ((r =? "100%") && (current =? "1")) eqn:E1.
      { apply andb_prop in E1 as [->%String.eqb_eq ->%String.eqb_eq].
        split; auto. }
      destruct ((r =? "0%") && (current =? "0")) eqn:E2.
      { apply andb_prop in E2 as [->%String.eqb_eq ->%String.eqb_eq].
        split; auto 6. }
      split; [discriminate|].
      intros [H|[H|[[H H']|[H H']]]]; try discriminate H.
      * injection H as H. contradiction.
      * injection H as H. subst. discriminate E1.
      * injection H as H. subst. discriminate E2.
  - split; auto.
Qed.

(** C1. The weight policy [is_weight_changed] answers false when no weight
    is requested (whatever the member record), and, on a member record
    with a weight field, false exactly when the requested string equals
    the current one or is one of the two literal equivalences ("100%"
    against "1", "0%" against "0"), true in every other case. *)
Theorem weight_policy :
  forall (self : HAProxy) (attrs : list string)
         (requested : option string) (current : string),
    host_attributes self = Some attrs ->
    nth_error attrs 18 = Some current ->
    (forall other : HAProxy, is_weight_changed None other = Ok false)
    /\ exists changed : bool,
         is_weight_changed requested self = Ok changed
         /\ (changed = false <->
             (requested = None \/ requested = Some current
              \/ (requested = Some "100%" /\ current = "1")
              \/ (requested = Some "0%" /\ current = "0"))).
Proof.
  intros self attrs requested current Ha Hw. split; [reflexivity|].
  exists (isChangeNeeded requested current). split.
  - now apply is_weight_changed_refines with attrs.
  - apply isChangeNeeded_false.
Qed.

(** The four comparisons of the contract, on a member record. *)
Example four_comparisons :
  let member w := self (loaded "enabled" "web1" "www" None (Py.Bool false) false
                          (record "www" "web1" "UP" w) pool) in
  is_weight_changed (Some "100%") (member "1") = Ok false
  /\ is_weight_changed (Some "0%") (member "0") = Ok false
  /\ is_weight_changed (Some "50") (member "50") = Ok false
  /\ is_weight_changed (Some "50") (member "1") = Ok true.
Proof. repeat split. Qed.

Lemma weight_policy_witness :
  let member := self (loaded "enabled" "web1" "www" None (Py.Bool false) false
                        (record "www" "web1" "UP" "1") pool) in
  is_weight_changed (Some "50") member = Ok true
  /\ is_weight_changed None member = Ok false.
Proof.
  intros member.
  destruct (weight_policy member (record "www" "web1" "UP" "1") (Some "50") "1"
              eq_refl eq_refl) as [Habsent [changed [Hrun Hiff]]].
  split; [|apply Habsent].
  rewrite Hrun. destruct changed; [reflexivity|].
  destruct Hiff as [Hiff _]. specialize (Hiff eq_refl).
  destruct Hiff as [H|[H|[[H _]|[H _]]]]; discriminate H.
Defined.

(** ** The transport *)

Section Transport.

Context {World : Type} (peer : Peer World).

Lemma recv_loop_done script : forall result (st : St World) r st',
  recv_loop script result st = Done r st' ->
  exists k, trace st' = (trace st ++ repeat EvRecv (S k))%list
            /\ self st' = self st /\ net st' = net st.
Proof.
  induction script as [|[buf|] rest IH]; intros result st r st' H.
  - inversion H; subst. now exists 0.
  - destruct buf as [|c buf].
    + inversion H; subst. now exists 0.
    + apply IH in H as [k [Ht [Hs Hn]]]. exists (S k). simpl in *.
      rewrite Ht, <- app_assoc. repeat split; assumption.
  - discriminate H.
Qed.

Lemma recv_loop_raised script : forall result (st : St World) e st',
  recv_loop script result st = Raised e st' ->
  e = SocketError
  /\ exists k, trace st' = (trace st ++ repeat EvRecv (S k))%list
               /\ self st' = self st /\ net st' = net st.
Proof.
  induction script as [|[buf|] rest IH]; intros result st e st' H.
  - discriminate H.
  - destruct buf as [|c buf]; [discriminate H|].
    apply IH in H as [He [k [Ht [Hs Hn]]]]. split; [assumption|].
    exists (S k). simpl in *. rewrite Ht, <- app_assoc. repeat split; assumption.
  - inversion H; subst. split; [reflexivity|]. now exists 0.
Qed.

(** A completed exchange is one full cycle on a connection of its own,
    and only [command_results] changes in the object. *)
Lemma execute_done cmd log (st : St World) r st' :
  execute peer cmd log st = Done r st' ->
  (exists k, trace st' = (trace st ++ cycle (socket (self st)) (cmd ++ LF) (S k))%list)
  /\ self st' = (if log then set_command_results (Some (Py.strip r)) (self st)
                 else self st).
Proof.
  unfold execute, bind, emit, get_self, get_net, put_net; simpl.
  destruct (peer_connect peer (net st) (socket (self st))) as [w1|]; [|discriminate].
  simpl. destruct (peer_sendall peer w1 (cmd ++ LF)) as [[w2 script]|]; [|discriminate].
  simpl. destruct (recv_loop script "" _) as [res st1|e st1] eqn:E; [|discriminate].
  apply recv_loop_done in E as [k [Ht [Hs Hn]]]. simpl in *.
  destruct log; simpl; intros H; inversion H; subst; simpl; rewrite Ht, Hs;
    (split; [exists k; unfold cycle; simpl;
             now rewrite <- !app_assoc | reflexivity]).
Qed.

(** A failed exchange raises the socket error, leaves the object as it
    was, and stops inside its cycle. *)
Lemma execute_raised cmd log (st : St World) e st' :
  execute peer cmd log st = Raised e st' ->
  e = SocketError
  /\ self st' = self st
  /\ exists tr, interrupted (socket (self st)) (cmd ++ LF) tr
                /\ trace st' = (trace st ++ tr)%list.
Proof.
  unfold execute, bind, emit, get_self, get_net, put_net; simpl.
  destruct (peer_connect peer (net st) (socket (self st))) as [w1|].
  2:{ intros H; inversion H; subst; simpl. repeat split.
      eexists; split; [apply at_connect|]. now rewrite <- app_assoc. }
  simpl. destruct (peer_sendall peer w1 (cmd ++ LF)) as [[w2 script]|].
  2:{ intros H; inversion H; subst; simpl. repeat split.
      eexists; split; [apply at_sendall|]. now rewrite <- !app_assoc. }
  simpl. destruct (recv_loop script "" _) as [res st1|e1 st1] eqn:E.
  { destruct log; discriminate. }
  apply recv_loop_raised in E as [He [k [Ht [Hs Hn]]]]. simpl in *.
  intros H; inversion H; subst. repeat split; [assumption|].
  eexists; split; [apply (at_recv _ _ k)|]. rewrite Ht.
  now rewrite <- !app_assoc.
Qed.

End Transport.

(** ** The decision logic *)

(** Both sides send the same line: unfold the builders and re-associate
    the concatenations. *)
Ltac same_line :=
  unfold get_weight_cmd, composite, enabled_subcommands, disabled_subcommands,
    target;
  repeat (progress (simpl; rewrite ?append_assoc));
  reflexivity.

Section Decision.

Context {World : Type} (peer : Peer World).

(** [enabled], case by case. *)
Lemma enabled_run (st : St World) (weight_changed in_maintenance : bool) :
  is_weight_changed (weight (self st)) (self st) = Ok weight_changed ->
  is_host_in_maintanence_mode (self st) = Ok in_maintenance ->
  enabled peer st =
    let query := "get weight " ++ target (backend (self st)) (host (self st)) in
    if negb weight_changed && negb in_maintenance
    then then_ret (execute peer query true) false st
    else if check_mode (self st)
    then then_ret (execute peer query true) true st
    else then_ret
           (execute peer
              (composite (enabled_subcommands (backend (self st)) (host (self st))
                            (weight (self st)) weight_changed in_maintenance))
              true) true st.
Proof.
  intros Hw Hs. unfold enabled, then_ret, bind at 1 2 3, get_self, lift.
  rewrite Hw, Hs. cbv beta iota. unfold ret at 1 2.
  destruct weight_changed, in_maintenance, (check_mode (self st)); simpl;
    same_line.
Qed.

(** [disabled], case by case. *)
Lemma disabled_run (st : St World) (in_maintenance : bool) :
  is_host_in_maintanence_mode (self st) = Ok in_maintenance ->
  disabled peer st =
    let query := "get weight " ++ target (backend (self st)) (host (self st)) in
    if in_maintenance
    then then_ret (execute peer query true) false st
    else if check_mode (self st)
    then then_ret (execute peer query true) true st
    else then_ret
           (execute peer
              (composite (disabled_subcommands (backend (self st)) (host (self st))
                            (Py.truthy (shutdown_sessions (self st)))))
              true) true st.
Proof.
  intros Hs. unfold disabled, then_ret, bind at 1 2, get_self, lift.
  rewrite Hs. cbv beta iota. unfold ret at 1.
  destruct in_maintenance, (check_mode (self st)),
    (Py.truthy (shutdown_sessions (self st))); simpl;
    same_line.
Qed.

(** [act], step by step. *)
Lemma act_steps (st : St World) :
  act peer st =
    match get_stat_output peer false st with
    | Raised e st1 => Raised e st1
    | Done stat_output st1 =>
        match get_host_stat_line (host (self st1)) stat_output with
        | Err e => Raised e st1
        | Ok found =>
            let st2 := after_load found st1 in
            match backend (self st2) with
            | Some _ => dispatch peer st2
            | None =>
                match get_backend (self st2) with
                | Ok px => dispatch peer (with_backend px st2)
                | Err e => Raised e st2
                end
            end
        end
    end.
Proof.
  unfold act, dispatch, report, after_load, with_backend, bind, get_self,
    modify_self, lift, ret, raise, exit_json, fail_json.
  destruct (get_stat_output peer false st) as [lines st1|e st1]; [|reflexivity].
  destruct (get_host_stat_line (host (self st1)) lines) as [found|e];
    [|reflexivity].
  cbn [self net trace backend state set_host_attributes set_backend].
  destruct (backend (self st1)) as [b|].
  - cbn [self net trace backend state set_host_attributes set_backend].
    destruct (state (self st1) =? "enabled").
    + now destruct (enabled peer _).
    + destruct (state (self st1) =? "disabled"); [|reflexivity].
      now destruct (disabled peer _).
  - destruct (get_backend _) as [px|e]; [|reflexivity].
    cbn [self net trace backend state set_host_attributes set_backend].
    destruct (state (self st1) =? "enabled").
    + now destruct (enabled peer _).
    + destruct (state (self st1) =? "disabled"); [|reflexivity].
      now destruct (disabled peer _).
Qed.

End Decision.

(** C2 (amended). For every request with desired state [enabled] on a
    loaded member record: if no weight change is needed and the member is
    not in maintenance, [enabled] executes only the [get weight] query and
    returns changed = false; otherwise, in a live run, it executes in one
    exchange the composite that begins with the query, has [set weight]
    exactly when a weight change is needed and [enable server] exactly
    when the member is in maintenance, in that order, and returns
    changed = true; in a dry run it executes only the query and returns
    changed = true. With status MAINT, current weight "1" and requested
    weight "100%", the live composite is
    [get weight P/H; enable server P/H]. *)
Theorem enabled_decision :
  forall (World : Type) (peer : Peer World) (st : St World)
         (weight_changed in_maintenance : bool),
    is_weight_changed (weight (self st)) (self st) = Ok weight_changed ->
    is_host_in_maintanence_mode (self st) = Ok in_maintenance ->
    let px := backend (self st) in
    let sv := host (self st) in
    let query := "get weight " ++ target px sv in
    (weight_changed = false -> in_maintenance = false ->
     enabled peer st = then_ret (execute peer query true) false st)
    /\ (weight_changed = true \/ in_maintenance = true ->
        check_mode (self st) = false ->
        enabled peer st =
          then_ret
            (execute peer
               (composite (enabled_subcommands px sv (weight (self st))
                             weight_changed in_maintenance)) true)
            true st)
    /\ (weight_changed = true \/ in_maintenance = true ->
        check_mode (self st) = true ->
        enabled peer st = then_ret (execute peer query true) true st)
    /\ (forall attrs,
          host_attributes (self st) = Some attrs ->
          nth_error attrs 17 = Some "MAINT" ->
          nth_error attrs 18 = Some "1" ->
          weight (self st) = Some "100%" ->
          check_mode (self st) = false ->
          enabled peer st =
            then_ret
              (execute peer
                 ("get weight " ++ target px sv ++ "; enable server " ++ target px sv)
                 true)
              true st).
Proof.
  intros World peer st wc sc Hw Hs px sv query.
  pose proof (enabled_run peer st wc sc Hw Hs) as E. cbv zeta in E.
  repeat split.
  - intros -> ->. exact E.
  - intros Hor Hc. rewrite E, Hc.
    destruct wc, sc; try reflexivity; destruct Hor; discriminate.
  - intros Hor Hc. rewrite E, Hc.
    destruct wc, sc; try reflexivity; destruct Hor; discriminate.
  - intros attrs Ha H17 H18 Hreq Hc.
    rewrite (get_host_attribute_status _ _ Ha), H17 in Hs.
    rewrite (is_weight_changed_refines _ _ _ _ Ha H18), Hreq in Hw.
    injection Hs as <-. injection Hw as <-.
    rewrite E, Hc, Hreq. simpl.
    unfold then_ret. f_equal; try (f_equal; subst px sv; same_line).
Qed.

Lemma enabled_decision_witness :
  let st := loaded "enabled" "web1" "www" (Some "100%") (Py.Bool false) false
              (record "www" "web1" "MAINT" "1") pool in
  is_weight_changed (weight (self st)) (self st) = Ok false
  /\ is_host_in_maintanence_mode (self st) = Ok true
  /\ enabled Balancer.peer st =
       then_ret
         (execute Balancer.peer "get weight www/web1; enable server www/web1" true)
         true st.
Proof.
  intros st. split; [reflexivity|]. split; [reflexivity|].
  destruct (enabled_decision _ Balancer.peer st false true eq_refl eq_refl)
    as (_ & _ & _ & scenario_A).
  exact (scenario_A (record "www" "web1" "MAINT" "1")
           eq_refl eq_refl eq_refl eq_refl eq_refl).
Defined.

(** C2, as stated, fails on a dry run: with the member in maintenance the
    claim has the composite with [enable server] executed, and check mode
    sends the query alone. *)
Lemma enabled_dry_run_counterexample :
  let st := loaded "enabled" "web1" "www" (Some "100%") (Py.Bool false) true
              (record "www" "web1" "MAINT" "1") pool in
  is_weight_changed (weight (self st)) (self st) = Ok false
  /\ is_host_in_maintanence_mode (self st) = Ok true
  /\ sent (trace (final (enabled Balancer.peer st))) = ["get weight www/web1" ++ LF]
  /\ enabled Balancer.peer st <>
       then_ret
         (execute Balancer.peer
            (composite (enabled_subcommands (Some "www") "web1" (Some "100%")
                          false true)) true)
         true st.
Proof.
  intros st. repeat split. intros H. vm_compute in H. discriminate H.
Qed.




(** ** [act] as two exchanges around two pure steps *)

Section Runs.

Context {World : Type} (peer : Peer World).

Lemma dispatch_decision (st : St World) :
  dispatch peer st =
    match decision (self st) with
    | Err e => Raised e st
    | Ok (changed, subcommands) =>
        match execute peer (composite subcommands) true st with
        | Done _ st' => Raised (ExitJson (command_results (self st')) changed) st'
        | Raised e st' => Raised e st'
        end
    end.
Proof.
  unfold dispatch, decision.
  destruct (state (self st) =? "enabled").
  - destruct (is_weight_changed _ _) as [wc|e] eqn:Hw.
    + destruct (is_host_in_maintanence_mode _) as [sc|e] eqn:Hs.
      * rewrite (enabled_run peer st wc sc Hw Hs). cbv zeta. simpl.
        unfold then_ret, bind, ret, composite.
        destruct wc, sc, (check_mode (self st)); simpl;
          now destruct (execute peer _ true st).
      * unfold enabled, bind, get_self, lift. rewrite Hw, Hs. reflexivity.
    + unfold enabled, bind, get_self, lift. rewrite Hw. reflexivity.
  - destruct (state (self st) =? "disabled"); [|reflexivity].
    destruct (is_host_in_maintanence_mode _) as [sc|e] eqn:Hs.
    + rewrite (disabled_run peer st sc Hs). cbv zeta. simpl.
      unfold then_ret, bind, ret, composite.
      destruct sc, (check_mode (self st)); simpl;
        now destruct (execute peer _ true st).
    + unfold disabled, bind, get_self, lift. rewrite Hs. reflexivity.
Qed.

(** The whole of [act]: the statistics exchange, [load], [decision], the
    second exchange, the report. *)
Lemma act_normal_form (st : St World) :
  act peer st =
    match execute peer "show stat" true st with
    | Raised e st1 => Raised e st1
    | Done output st1 =>
        match load (self st1) output with
        | (h, Some e) => Raised e (with_self h st1)
        | (h, None) =>
            match decision h with
            | Err e => Raised e (with_self h st1)
            | Ok (changed, subcommands) =>
                match execute peer (composite subcommands) true (with_self h st1) with
                | Done _ st2 =>
                    Raised (ExitJson (command_results (self st2)) changed) st2
                | Raised e st2 => Raised e st2
                end
            end
        end
    end.
Proof.
  rewrite act_steps. unfold get_stat_output, bind, ret.
  destruct (execute peer "show stat" true st) as [output st1|e st1];
    [|reflexivity].
  fold (stat_lines output). unfold load.
  destruct (get_host_stat_line (host (self st1)) (stat_lines output))
    as [found|e]; [|now destruct st1].
  cbv zeta. unfold after_load at 1. cbn [self].
  destruct (backend (set_host_attributes found (self st1))) as [b|].
  - now rewrite dispatch_decision.
  - unfold after_load at 1. cbn [self].
    destruct (get_backend (set_host_attributes found (self st1))) as [px|e];
      [|reflexivity].
    now rewrite dispatch_decision.
Qed.

End Runs.

(** ** Traces *)

Lemma opened_app (a b : list event) : opened (a ++ b)%list = opened a + opened b.
Proof. unfold opened. now rewrite filter_app, length_app. Qed.

Lemma closed_app (a b : list event) : closed (a ++ b)%list = closed a + closed b.
Proof. unfold closed. now rewrite filter_app, length_app. Qed.

Lemma sent_app (a b : list event) : sent (a ++ b)%list = (sent a ++ sent b)%list.
Proof.
  induction a as [|e a IH]; [reflexivity|].
  destruct e; simpl; now rewrite IH.
Qed.

Lemma recvs_counts (k : nat) :
  opened (repeat EvRecv k) = 0 /\ closed (repeat EvRecv k) = 0
  /\ sent (repeat EvRecv k) = [].
Proof. induction k as [|k IH]; [now repeat split | exact IH]. Qed.

Lemma cycle_counts (path data : string) (k : nat) :
  opened (cycle path data k) = 1 /\ closed (cycle path data k) = 1
  /\ sent (cycle path data k) = [data].
Proof.
  destruct (recvs_counts k) as (Ho & Hc & Hs). unfold cycle. repeat split.
  - change (S (opened (repeat EvRecv k ++ [EvClose])%list) = 1).
    now rewrite opened_app, Ho.
  - change (closed (repeat EvRecv k ++ [EvClose])%list = 1).
    now rewrite closed_app, Hc.
  - change (data :: sent (repeat EvRecv k ++ [EvClose])%list = [data]).
    now rewrite sent_app, Hs.
Qed.

Lemma interrupted_counts (path data : string) (tr : list event) :
  interrupted path data tr ->
  opened tr = 1 /\ closed tr = 0 /\ (sent tr = [] \/ sent tr = [data]).
Proof.
  intros [| |k]; [now repeat split; auto | now repeat split; auto |].
  destruct (recvs_counts (S k)) as (Ho & Hc & Hs). repeat split.
  - change (S (opened (repeat EvRecv (S k))) = 1). now rewrite Ho.
  - change (closed (repeat EvRecv (S k)) = 0). exact Hc.
  - right. change (data :: sent (repeat EvRecv (S k)) = [data]). now rewrite Hs.
Qed.

Lemma scan_recvs (k n : nat) (tr : list event) :
  scan Receiving n (repeat EvRecv k ++ EvClose :: tr)%list = scan Idle (S n) tr.
Proof. induction k as [|k IH]; [reflexivity | exact IH]. Qed.

Lemma scan_cycle (path data : string) (k n : nat) (tr : list event) :
  scan Idle n (cycle path data (S k) ++ tr)%list = scan Idle (S n) tr.
Proof.
  unfold cycle. simpl. rewrite <- app_assoc. apply scan_recvs.
Qed.

(** ** Which exceptions the pure steps raise *)

Lemma get_host_stat_line_error host lines e :
  get_host_stat_line host lines = Err e -> e = IndexError.
Proof.
  induction lines as [|line rest IH]; [discriminate|].
  cbn [get_host_stat_line]. cbv zeta.
  destruct (nth_error (Py.split comma line) 1) as [svname|].
  - destruct (svname =? host); [discriminate | exact IH].
  - now intros [= <-].
Qed.

Lemma get_host_attribute_error name self e :
  get_host_attribute name self = Err e -> e = TypeError \/ e = IndexError.
Proof.
  unfold get_host_attribute.
  destruct (host_attributes self) as [attrs|]; [|intros [= <-]; auto].
  destruct (dict_get attributes name) as [i|]; [|intros [= <-]; auto].
  destruct (nth_error attrs i); [discriminate | intros [= <-]; auto].
Qed.

Lemma maintenance_error self e :
  is_host_in_maintanence_mode self = Err e -> e = TypeError \/ e = IndexError.
Proof.
  unfold is_host_in_maintanence_mode.
  destruct (get_host_attribute "status" self) eqn:E; [discriminate|].
  intros [= <-]. now apply get_host_attribute_error in E.
Qed.

Lemma is_weight_changed_error requested self e :
  is_weight_changed requested self = Err e -> e = TypeError \/ e = IndexError.
Proof.
  destruct requested as [r|]; simpl; [|discriminate].
  unfold get_current_weight.
  destruct (get_host_attribute "weight" self) eqn:E; simpl.
  - destruct (_ && _); [discriminate|]. destruct (_ && _); discriminate.
  - intros [= <-]. now apply get_host_attribute_error in E.
Qed.

Lemma load_error h output h' e :
  load h output = (h', Some e) -> e = TypeError \/ e = IndexError.
Proof.
  unfold load.
  destruct (get_host_stat_line _ _) as [found|e0] eqn:E.
  - cbv zeta. destruct (backend _); [discriminate|].
    destruct (get_backend _) as [px|e1] eqn:B; [discriminate|].
    intros [= _ <-]. now apply get_host_attribute_error in B.
  - intros [= _ <-]. right. now apply get_host_stat_line_error in E.
Qed.

Lemma decision_error h e :
  decision h = Err e ->
  e = TypeError \/ e = IndexError
  \/ (e = FailJson ("unknown state specified: '" ++ state h ++ "'")
      /\ in_choices ACTION_CHOICES (state h) = false).
Proof.
  unfold decision, in_choices, ACTION_CHOICES. simpl.
  destruct (state h =? "enabled").
  - destruct (is_weight_changed _ _) eqn:W; simpl.
    + destruct (is_host_in_maintanence_mode _) eqn:S0; simpl; [discriminate|].
      intros [= <-]. apply maintenance_error in S0. tauto.
    + intros [= <-]. apply is_weight_changed_error in W. tauto.
  - destruct (state h =? "disabled").
    + destruct (is_host_in_maintanence_mode _) eqn:S0; simpl; [discriminate|].
      intros [= <-]. apply maintenance_error in S0. tauto.
    + intros [= <-]. auto.
Qed.

(** [load] touches [host_attributes] and [backend] only. *)
Lemma load_frame h output h' o :
  load h output = (h', o) ->
  state h' = state h /\ host h' = host h /\ weight h' = weight h
  /\ socket h' = socket h /\ shutdown_sessions h' = shutdown_sessions h
  /\ check_mode h' = check_mode h /\ command_results h' = command_results h.
Proof.
  unfold load. destruct (get_host_stat_line _ _) as [found|e0].
  - cbv zeta. destruct (backend _).
    + intros [= <- _]. now repeat split.
    + destruct (get_backend _); intros [= <- _]; now repeat split.
  - intros [= <- _]. now repeat split.
Qed.

(** ** The shape of every run of [act] *)

Section Shape.

Context {World : Type} (peer : Peer World).

(** However [act] ends, it ended in one of five ways: the statistics
    exchange was interrupted; the Load step raised; the decision raised
    or failed; the second exchange was interrupted; or both exchanges
    completed and [exit_json] reported. *)
Lemma act_shape (st : St World) e st' :
  act peer st = Raised e st' ->
  let sock := socket (self st) in
  (e = SocketError
   /\ exists tr, interrupted sock ("show stat" ++ LF) tr
                 /\ trace st' = (trace st ++ tr)%list)
  \/ exists k output h o,
       let tr1 := (trace st ++ cycle sock ("show stat" ++ LF) (S k))%list in
       load (set_command_results (Some (Py.strip output)) (self st)) output = (h, o)
       /\ ((o = Some e /\ trace st' = tr1 /\ self st' = h)
           \/ (o = None /\ decision h = Err e /\ trace st' = tr1 /\ self st' = h)
           \/ (o = None
               /\ exists changed subcommands,
                    decision h = Ok (changed, subcommands)
                    /\ ((e = SocketError
                         /\ exists tr,
                              interrupted sock (composite subcommands ++ LF) tr
                              /\ trace st' = (tr1 ++ tr)%list
                              /\ self st' = h)
                        \/ (exists k2 out,
                              e = ExitJson out changed
                              /\ trace st' =
                                   (tr1 ++ cycle sock (composite subcommands ++ LF)
                                             (S k2))%list
                              /\ backend (self st') = backend h)))).
Proof.
  intros H sock. rewrite act_normal_form in H.
  destruct (execute peer "show stat" true st) as [output st1|e1 st1] eqn:E1.
  2:{ injection H as <- <-. apply execute_raised in E1 as (He & _ & tr & Hi & Ht).
      left. eauto. }
  apply execute_done in E1 as [[k Ht] Hself]. right.
  destruct (load (self st1) output) as [h o] eqn:L.
  rewrite Hself in L. exists k, output, h, o. cbv zeta.
  split; [exact L|].
  pose proof (load_frame _ _ _ _ L) as (_ & _ & _ & Hsock & _).
  cbn [socket set_command_results] in Hsock.
  destruct o as [e0|].
  { injection H as <- <-. left. now repeat split. }
  right. destruct (decision h) as [[changed subs]|e0] eqn:D.
  2:{ injection H as <- <-. left. now repeat split. }
  right. split; [reflexivity|]. exists changed, subs. split; [reflexivity|].
  destruct (execute peer (composite subs) true (with_self h st1))
    as [r st2|e2 st2] eqn:E2.
  - injection H as <- <-. apply execute_done in E2 as [[k2 Ht2] Hself2].
    cbn [with_self self trace] in Ht2, Hself2. right.
    exists k2, (command_results (self st2)). repeat split.
    + rewrite Ht2, Ht, Hsock. reflexivity.
    + now rewrite Hself2.
  - injection H as <- <-.
    apply execute_raised in E2 as (He & Hself2 & tr & Hi & Ht2).
    cbn [with_self self trace] in Hi, Ht2, Hself2. left. split; [assumption|].
    exists tr. rewrite Hsock in Hi. split; [assumption|].
    split; [now rewrite Ht2, Ht | assumption].
Qed.

(** [act] never returns: it ends in [exit_json], [fail_json] or an
    uncaught exception. *)
Lemma act_ends (st : St World) : exists e st', act peer st = Raised e st'.
Proof.
  rewrite act_normal_form.
  destruct (execute peer "show stat" true st) as [output st1|]; [|eauto].
  destruct (load (self st1) output) as [h [e|]]; [eauto|].
  destruct (decision h) as [[changed subs]|]; [|eauto].
  destruct (execute peer (composite subs) true _); eauto.
Qed.

End Shape.

(** C7 (amended). Every invocation that completes and reports through
    [exit_json] has made exactly two socket round trips, whichever path it
    took: one for the statistics snapshot and one for the composite
    command on the mutating path, or for the [get weight] query on the
    no-op and dry-run paths. *)
Theorem two_round_trips :
  forall (World : Type) (peer : Peer World) (st : St World)
         (out : option string) (changed : bool) (st' : St World),
    trace st = [] ->
    act peer st = Raised (ExitJson out changed) st' ->
    round_trips (trace st') = Some 2.
Proof.
  intros World peer st out changed st' Hnil H.
  apply act_shape in H. cbv zeta in H. rewrite Hnil in H.
  destruct H as [[He _] | (k & output & h & o & L & H)]; [discriminate He|].
  destruct H as [(-> & _) | [(_ & D & _) | (_ & c & subs & D & H)]].
  - apply load_error in L as [L|L]; discriminate L.
  - apply decision_error in D as [D|[D|[D _]]]; discriminate D.
  - destruct H as [[He _] | (k2 & out2 & _ & Ht & _)]; [discriminate He|].
    rewrite Ht. unfold round_trips. cbn [app]. rewrite scan_cycle.
    rewrite <- (app_nil_r (cycle _ _ (S k2))). now rewrite scan_cycle.
Qed.

Lemma two_round_trips_witness :
  let st := fresh "enabled" "web1" (Some "100%") None false pool in
  sent (trace (final (act Balancer.peer st)))
    = ["show stat" ++ LF; "get weight www/web1; enable server www/web1" ++ LF]
  /\ round_trips (trace (final (act Balancer.peer st))) = Some 2.
Proof.
  intros st. split; [reflexivity|].
  apply (two_round_trips _ Balancer.peer st (Some "1 (initial 1)") true).
  - reflexivity.
  - vm_compute. reflexivity.
Defined.

(** C7, as stated, fails on the no-op path: a request that changes
    nothing still makes the statistics exchange and the [get weight]
    exchange, two round trips and not one. *)
Lemma no_op_round_trips_counterexample :
  let run := main Balancer.peer (request "enabled" "web2" None None false) pool in
  reported run = Some (Some "100 (initial 100)", false)
  /\ sent (calls run) = ["show stat" ++ LF; "get weight www/web2" ++ LF]
  /\ round_trips (calls run) = Some 2
  /\ round_trips (calls run) <> Some 1.
Proof.
  intros run. split; [reflexivity|]. split; [reflexivity|].
  split; [reflexivity|]. vm_compute. discriminate.
Qed.

(** C9 (amended). Every transport exchange acquires a connection of its
    own and, when it completes, has closed it: the calls of a completed
    [execute] are one full cycle ending in [close], and [execute] has no
    early return. When [connect], [sendall] or [recv] raises, the
    exception leaves [execute] with the socket it opened not closed by
    the code. An invocation that ends in any other way than that socket
    error has closed every socket it opened. *)
Theorem connection_scope :
  forall (World : Type) (peer : Peer World),
    (forall cmd log (st : St World) r st',
        execute peer cmd log st = Done r st' ->
        (exists k, trace st' =
                     (trace st ++ cycle (socket (self st)) (cmd ++ LF) (S k))%list)
        /\ opened (trace st') = S (opened (trace st))
        /\ closed (trace st') = S (closed (trace st)))
    /\ (forall cmd log (st : St World) e st',
           execute peer cmd log st = Raised e st' ->
           e = SocketError
           /\ opened (trace st') = S (opened (trace st))
           /\ closed (trace st') = closed (trace st))
    /\ (forall (st : St World) e st',
           trace st = [] ->
           act peer st = Raised e st' ->
           e <> SocketError ->
           opened (trace st') = closed (trace st')).
Proof.
  intros World peer. repeat split.
  - now apply execute_done in H as [Hk _].
  - apply execute_done in H as [[k Ht] _]. rewrite Ht, opened_app.
    destruct (cycle_counts (socket (self st)) (cmd ++ LF) (S k)) as (-> & _). lia.
  - apply execute_done in H as [[k Ht] _]. rewrite Ht, closed_app.
    destruct (cycle_counts (socket (self st)) (cmd ++ LF) (S k)) as (_ & -> & _). lia.
  - now apply execute_raised in H.
  - apply execute_raised in H as (_ & _ & tr & Hi & ->). rewrite opened_app.
    apply interrupted_counts in Hi as (-> & _). lia.
  - apply execute_raised in H as (_ & _ & tr & Hi & ->). rewrite closed_app.
    apply interrupted_counts in Hi as (_ & -> & _). lia.
  - intros st e st' Hnil H Hne. apply act_shape in H. cbv zeta in H.
    rewrite Hnil in H. cbn [app] in H.
    destruct H as [[He _] | (k & output & h & o & L & H)]; [contradiction|].
    pose proof (cycle_counts (socket (self st)) ("show stat" ++ LF) (S k))
      as (Ho & Hc & _).
    destruct H as [(_ & -> & _) | [(_ & _ & -> & _) | (_ & c & subs & _ & H)]];
      [congruence | congruence |].
    destruct H as [[He _] | (k2 & out2 & _ & -> & _)]; [contradiction|].
    pose proof (cycle_counts (socket (self st)) (composite subs ++ LF) (S k2))
      as (Ho2 & Hc2 & _).
    rewrite opened_app, closed_app. congruence.
Qed.

Lemma connection_scope_witness :
  let st := fresh "enabled" "web1" None None false pool in
  let o := execute Balancer.peer "get weight www/web1" true st in
  o = Done ("1 (initial 1)" ++ LF ++ LF) (final o)
  /\ opened (trace (final o)) = 1
  /\ closed (trace (final o)) = 1.
Proof.
  intros st o. split; [reflexivity|].
  destruct (connection_scope _ Balancer.peer) as [Hdone _].
  destruct (Hdone "get weight www/web1" true st
              ("1 (initial 1)" ++ LF ++ LF) (final o) eq_refl)
    as (_ & Ho & Hc).
  split; [exact Ho | exact Hc].
Defined.

(** C9, as stated, fails when [connect] raises: the socket was created,
    the exception leaves [execute], and no [close] call is made. The same
    holds when [sendall] or a later [recv] raises. *)
Lemma connect_failure_counterexample :
  let st := fresh "enabled" "web1" None None false pool_elsewhere in
  let o := execute Balancer.peer "show stat" true st in
  o = Raised SocketError (final o)
  /\ trace (final o) = [EvSocket; EvConnect DEFAULT_SOCKET_LOCATION]
  /\ opened (trace (final o)) = 1
  /\ closed (trace (final o)) = 0
  /\ closed (trace (final (execute broken_pipe "show stat" true
                             (mkSt (self st) tt [])))) = 0
  /\ closed (trace (final (execute reset_by_peer "show stat" true
                             (mkSt (self st) tt [])))) = 0.
Proof. repeat split. Qed.

(** ** A host that is not in the dump *)

Lemma lookup_absent host lines :
  absent host lines ->
  get_host_stat_line host lines = Ok None
  \/ get_host_stat_line host lines = Err IndexError.
Proof.
  induction 1 as [|line rest Hline _ IH]; [now left|].
  cbn [get_host_stat_line]. cbv zeta.
  destruct (nth_error (Py.split comma line) 1) as [svname|]; [|now right].
  destruct (String.eqb_spec svname host) as [->|_]; [now elim Hline | exact IH].
Qed.

Lemma lookup_absent_total host lines :
  absent host lines ->
  Forall (fun line => 2 <= length (Py.split comma line)) lines ->
  get_host_stat_line host lines = Ok None.
Proof.
  induction 1 as [|line rest Hline _ IH]; [reflexivity|].
  intros Hlen. inversion Hlen as [|? ? H2 Hrest]; subst.
  cbn [get_host_stat_line]. cbv zeta.
  destruct (nth_error (Py.split comma line) 1) as [svname|] eqn:E.
  - destruct (String.eqb_spec svname host) as [->|_]; [now elim Hline | auto].
  - apply nth_error_None in E. lia.
Qed.

(** With [None] stored as the member record, every read of it is a
    [TypeError]. *)
Lemma decision_without_record h :
  host_attributes h = None ->
  in_choices ACTION_CHOICES (state h) = true ->
  decision h = Err TypeError.
Proof.
  intros Hn Hc. unfold decision, in_choices, ACTION_CHOICES in *. simpl in Hc.
  destruct (state h =? "enabled").
  - unfold is_weight_changed, get_current_weight, is_host_in_maintanence_mode,
      get_host_attribute. rewrite Hn. now destruct (weight h).
  - destruct (state h =? "disabled"); [|discriminate Hc].
    unfold is_host_in_maintanence_mode, get_host_attribute. now rewrite Hn.
Qed.

Lemma decision_unknown_state h :
  in_choices ACTION_CHOICES (state h) = false ->
  decision h = Err (FailJson ("unknown state specified: '" ++ state h ++ "'")).
Proof.
  unfold decision, in_choices, ACTION_CHOICES. simpl.
  destruct (state h =? "enabled"); [discriminate|].
  destruct (state h =? "disabled"); [discriminate | reflexivity].
Qed.

(** C4 (amended). For every request whose target host is absent from the
    statistics dump, the invocation ends fatally with no socket call
    beyond the statistics exchange, and never reports through
    [exit_json]. There is no "member record missing" report: the lookup
    returns [None] (or raises [IndexError] on a record with fewer than two
    fields), [None] is stored as the member record, and for the states
    [enabled] and [disabled] the first read of that record raises an
    uncaught [TypeError]. *)
Theorem member_absent :
  forall (World : Type) (peer : Peer World) (st : St World)
         (output : string) (st1 : St World),
    execute peer "show stat" true st = Done output st1 ->
    absent (host (self st)) (stat_lines output) ->
    exists e st',
      act peer st = Raised e st'
      /\ trace st' = trace st1
      /\ (e = TypeError \/ e = IndexError
          \/ (e = FailJson ("unknown state specified: '" ++ state (self st) ++ "'")
              /\ in_choices ACTION_CHOICES (state (self st)) = false))
      /\ (Forall (fun line => 2 <= length (Py.split comma line)) (stat_lines output) ->
          host_attributes (self st') = None
          /\ (in_choices ACTION_CHOICES (state (self st)) = true -> e = TypeError)).
Proof.
  intros World peer st output st1 Hexec Habs.
  rewrite act_normal_form, Hexec.
  apply execute_done in Hexec as [_ Hself].
  assert (Hhost : host (self st1) = host (self st)) by now rewrite Hself.
  assert (Hstate : state (self st1) = state (self st)) by now rewrite Hself.
  unfold load. rewrite Hhost.
  destruct (lookup_absent _ _ Habs) as [Hlook|Hlook]; rewrite Hlook.
  - cbv zeta. cbn [backend set_host_attributes].
    set (h1 := set_host_attributes None (self st1)).
    destruct (backend (self st1)) as [b|].
    + destruct (in_choices ACTION_CHOICES (state (self st))) eqn:Hc.
      * rewrite (decision_without_record h1 eq_refl)
          by (cbn [h1 state set_host_attributes]; now rewrite Hstate).
        eexists _, _. split; [reflexivity|]. split; [reflexivity|].
        split; [now left|]. intros _. now split.
      * rewrite (decision_unknown_state h1)
          by (cbn [h1 state set_host_attributes]; now rewrite Hstate).
        eexists _, _. split; [reflexivity|]. split; [reflexivity|].
        cbn [h1 state set_host_attributes]. rewrite Hstate.
        split; [right; right; now split|]. intros _.
        split; [reflexivity | discriminate].
    + change (get_backend h1) with (@Err string TypeError).
      eexists _, _. split; [reflexivity|]. split; [reflexivity|].
      split; [now left|]. intros _. now split.
  - eexists _, _. split; [reflexivity|]. split; [reflexivity|].
    split; [right; now left|]. intros Hlen.
    rewrite (lookup_absent_total _ _ Habs Hlen) in Hlook. discriminate Hlook.
Qed.

Lemma member_absent_witness :
  let st := fresh "enabled" "web9" None None false pool in
  absent "web9" (stat_lines (Balancer.show_stat pool))
  /\ exists st', act Balancer.peer st = Raised TypeError st'
                 /\ host_attributes (self st') = None
                 /\ sent (trace st') = ["show stat" ++ LF].
Proof.
  intros st.
  assert (Habs : absent "web9" (stat_lines (Balancer.show_stat pool))).
  { vm_compute. repeat constructor; discriminate. }
  split; [exact Habs|].
  destruct (member_absent _ Balancer.peer st (Balancer.show_stat pool)
              (final (execute Balancer.peer "show stat" true st))
              eq_refl Habs)
    as (e & st' & Hact & Htrace & _ & Hnone).
  assert (Hlen : Forall (fun line => 2 <= length (Py.split comma line))
                   (stat_lines (Balancer.show_stat pool))).
  { vm_compute. repeat constructor. }
  destruct (Hnone Hlen) as [Hattrs Herr].
  exists st'. rewrite <- (Herr eq_refl). split; [exact Hact|].
  split; [exact Hattrs|]. now rewrite Htrace.
Defined.

(** C4, as stated, fails: with the host absent from the dump the run ends
    in an uncaught [TypeError] raised while reading the record that is
    [None], not in a failure report of the module, and [None] had been
    stored as the member record before. *)
Lemma member_absent_counterexample :
  let run := main Balancer.peer (request "enabled" "web9" None None false) pool in
  absent "web9" (stat_lines (Balancer.show_stat pool))
  /\ (exists st, run = Ran (Raised TypeError st)
                 /\ host_attributes (self st) = None)
  /\ (forall msg st, run <> Ran (Raised (FailJson msg) st)).
Proof.
  intros run. repeat split.
  - vm_compute. repeat constructor; discriminate.
  - eexists. split; [vm_compute; reflexivity | reflexivity].
  - intros msg st H. vm_compute in H. discriminate H.
Qed.

(** ** Dry runs against live runs *)

Section DryRun.

Context {World : Type} (peer : Peer World).

Lemma recv_loop_live script : forall result (st : St World),
  recv_loop script result (live st) = relive (recv_loop script result st).
Proof.
  induction script as [|[buf|] rest IH]; intros result st; try reflexivity.
  destruct buf as [|c buf]; [reflexivity|].
  exact (IH _ (mkSt (self st) (net st) (trace st ++ [EvRecv]))).
Qed.

(** The transport does not look at the check-mode flag. *)
Lemma execute_live cmd log (st : St World) :
  execute peer cmd log (live st) = relive (execute peer cmd log st).
Proof.
  unfold execute, bind, emit, get_self, get_net, put_net. cbn [live self net trace socket set_check_mode].
  destruct (peer_connect peer (net st) (socket (self st))) as [w1|];
    [|reflexivity].
  cbn [live self net trace]. destruct (peer_sendall peer w1 (cmd ++ LF)) as [[w2 script]|];
    [|reflexivity].
  cbn [self net trace].
  match goal with
  | |- context [recv_loop script "" ?s] =>
      change s with (live (mkSt (self st) w2
        (((trace st ++ [EvSocket]) ++ [EvConnect (socket (self st))])
           ++ [EvSendall (cmd ++ LF)])))
  end.
  rewrite recv_loop_live.
  destruct (recv_loop script "" _) as [r st1|e st1]; [|reflexivity].
  destruct log; reflexivity.
Qed.

Lemma load_live h output :
  load (set_check_mode false h) output =
    (set_check_mode false (fst (load h output)), snd (load h output)).
Proof.
  unfold load. cbn [host set_check_mode].
  destruct (get_host_stat_line (host h) (stat_lines output)) as [found|e];
    [|reflexivity].
  cbv zeta. cbn [backend set_check_mode set_host_attributes].
  destruct (backend h); [reflexivity|].
  change (get_backend (set_host_attributes found (set_check_mode false h)))
    with (get_backend (set_host_attributes found h)).
  destruct (get_backend (set_host_attributes found h)); reflexivity.
Qed.

(** The [changed] flag of the decision does not depend on the mode. *)
Lemma decision_live h changed subcommands :
  decision h = Ok (changed, subcommands) ->
  exists subcommands',
    decision (set_check_mode false h) = Ok (changed, subcommands').
Proof.
  unfold decision. cbn [state weight set_check_mode].
  change (is_weight_changed (weight h) (set_check_mode false h))
    with (is_weight_changed (weight h) h).
  change (is_host_in_maintanence_mode (set_check_mode false h))
    with (is_host_in_maintanence_mode h).
  destruct (state h =? "enabled").
  - destruct (is_weight_changed (weight h) h) as [wc|]; [|discriminate].
    destruct (is_host_in_maintanence_mode h) as [sc|]; [|discriminate].
    simpl. intros [= <- _]. eauto.
  - destruct (state h =? "disabled"); [|discriminate].
    destruct (is_host_in_maintanence_mode h) as [sc|]; [|discriminate].
    simpl. intros [= <- _]. eauto.
Qed.

(** In check mode the decision sends the query and nothing else. *)
Lemma decision_dry_run h changed subcommands :
  check_mode h = true ->
  decision h = Ok (changed, subcommands) ->
  subcommands = ["get weight " ++ target (backend h) (host h)].
Proof.
  unfold decision. intros Hc.
  destruct (state h =? "enabled").
  - destruct (is_weight_changed (weight h) h) as [wc|]; [|discriminate].
    destruct (is_host_in_maintanence_mode h) as [sc|]; [|discriminate].
    simpl. rewrite Hc, andb_false_r. now intros [= _ <-].
  - destruct (state h =? "disabled"); [|discriminate].
    destruct (is_host_in_maintanence_mode h) as [sc|]; [|discriminate].
    simpl. rewrite Hc, andb_false_r. now intros [= _ <-].
Qed.

Lemma load_backend h output h' o b :
  load h output = (h', o) -> backend h = Some b -> backend h' = Some b.
Proof.
  unfold load. intros H Hb.
  destruct (get_host_stat_line _ _) as [found|e].
  - cbv zeta in H. cbn [backend set_host_attributes] in H. rewrite Hb in H.
    now injection H as <- _.
  - now injection H as <- _.
Qed.

End DryRun.

(** C5. For every request with the dry-run flag set, nothing but the
    statistics query and the non-mutating [get weight] query is handed to
    the socket, and when the run reports, the [changed] flag it reports is
    the one the same request reports in a live run against the same peer
    (a live run that can only end otherwise by a socket error). *)
Theorem dry_run_purity :
  forall (World : Type) (peer : Peer World) (st : St World) (e : exn) (st' : St World),
    check_mode (self st) = true ->
    trace st = [] ->
    act peer st = Raised e st' ->
    (exists px,
        (forall b, backend (self st) = Some b -> px = Some b)
        /\ (sent (trace st') = []
            \/ sent (trace st') = ["show stat" ++ LF]
            \/ sent (trace st') =
                 ["show stat" ++ LF;
                  ("get weight " ++ target px (host (self st))) ++ LF]))
    /\ (forall out changed,
           e = ExitJson out changed ->
           exists e2 st2,
             act peer (live st) = Raised e2 st2
             /\ (e2 = SocketError \/ exists out2, e2 = ExitJson out2 changed)).
Proof.
  intros World peer st e st' Hdry Hnil Hact. split.
  - apply act_shape in Hact. cbv zeta in Hact. rewrite Hnil in Hact.
    cbn [app] in Hact.
    destruct Hact as [(_ & tr & Hi & ->) | (k & output & h & o & L & H)].
    { exists (backend (self st)). split; [auto|].
      apply interrupted_counts in Hi as (_ & _ & [-> | ->]); auto. }
    pose proof (cycle_counts (socket (self st)) ("show stat" ++ LF) (S k))
      as (_ & _ & Hs).
    pose proof (load_frame _ _ _ _ L) as (_ & Hhost & _ & _ & _ & Hcheck & _).
    cbn [host check_mode set_command_results] in Hhost, Hcheck.
    exists (backend h). split.
    { intros b Hb. now apply (load_backend _ _ _ _ b L). }
    destruct H as [(_ & -> & _) | [(_ & _ & -> & _) | (_ & c & subs & D & H)]];
      [now right; left | now right; left |].
    rewrite Hdry in Hcheck.
    rewrite (decision_dry_run h c subs Hcheck D), Hhost in H.
    unfold composite in H. cbn [String.concat] in H.
    destruct H as [(_ & tr & Hi & -> & _) | (k2 & out2 & _ & -> & _)];
      rewrite sent_app, Hs.
    + apply interrupted_counts in Hi as (_ & _ & [-> | ->]); auto.
    + right; right.
      now destruct (cycle_counts (socket (self st))
                      (("get weight " ++ target (backend h) (host (self st))) ++ LF)
                      (S k2)) as (_ & _ & ->).
  - intros out changed ->. rewrite act_normal_form in Hact.
    rewrite act_normal_form, execute_live.
    destruct (execute peer "show stat" true st) as [output st1|e1 st1] eqn:E1.
    2:{ apply execute_raised in E1 as [-> _]. discriminate Hact. }
    cbn [relive live self]. rewrite load_live.
    destruct (load (self st1) output) as [h [e0|]] eqn:L.
    { apply load_error in L as [-> | ->]; discriminate Hact. }
    cbn [fst snd].
    destruct (decision h) as [[c subs]|e0] eqn:D.
    2:{ apply decision_error in D as [-> | [-> | [-> _]]]; discriminate Hact. }
    assert (c = changed) as ->.
    { destruct (execute peer (composite subs) true (with_self h st1))
        as [r st2|e2 st2] eqn:E2; [now injection Hact|].
      apply execute_raised in E2 as [-> _]. discriminate Hact. }
    destruct (decision_live h changed subs D) as [subs' ->].
    destruct (execute peer (composite subs') true _) as [r st2|e2 st2] eqn:E2.
    + eexists _, _. split; [reflexivity|]. right. eauto.
    + eexists _, _. split; [reflexivity|]. left.
      now apply execute_raised in E2.
Qed.

Lemma dry_run_purity_witness :
  let st := fresh "enabled" "web1" (Some "50") None true pool in
  exists st',
    act Balancer.peer st = Raised (ExitJson (Some "1 (initial 1)") true) st'
    /\ sent (trace st') = ["show stat" ++ LF; "get weight www/web1" ++ LF]
    /\ net st' = pool
    /\ exists out2 st2,
         act Balancer.peer (live st) = Raised (ExitJson out2 true) st2
         /\ sent (trace st2)
            = ["show stat" ++ LF;
               "get weight www/web1; set weight www/web1 50; enable server www/web1"
               ++ LF].
Proof.
  intros st.
  pose (st' := final (act Balancer.peer st)).
  assert (Hact : act Balancer.peer st
                 = Raised (ExitJson (Some "1 (initial 1)") true) st')
    by (vm_compute; reflexivity).
  exists st'. split; [exact Hact|]. split; [reflexivity|]. split; [reflexivity|].
  destruct (dry_run_purity _ Balancer.peer st _ st' eq_refl eq_refl Hact)
    as [_ Hlive].
  destruct (Hlive _ _ eq_refl) as (e2 & st2 & Hact2 & [He2 | [out2 He2]]).
  - subst e2. vm_compute in Hact2. discriminate Hact2.
  - subst e2. exists out2, st2. split; [exact Hact2|].
    vm_compute in Hact2. injection Hact2 as _ <-. reflexivity.
Defined.

(** ** A host that is in the dump *)

(** The Load step on a dump that has a record for the host: the record is
    stored, and the pool name is the given one or else field 0 of the
    record. *)
Lemma load_found h output attrs px :
  get_host_stat_line (host h) (stat_lines output) = Ok (Some attrs) ->
  nth_error attrs 0 = Some px ->
  exists h',
    load h output = (h', None)
    /\ host_attributes h' = Some attrs
    /\ backend h' = Some (match backend h with Some b => b | None => px end)
    /\ state h' = state h /\ host h' = host h /\ weight h' = weight h
    /\ socket h' = socket h /\ check_mode h' = check_mode h.
Proof.
  intros Hlook H0. unfold load. rewrite Hlook. cbv zeta.
  cbn [backend set_host_attributes]. destruct (backend h) as [b|] eqn:Hb.
  - eexists. split; [reflexivity|]. cbn. now rewrite Hb.
  - rewrite (get_host_attribute_pxname
               (set_host_attributes (Some attrs) h) attrs eq_refl), H0.
    eexists. split; [reflexivity|]. cbn. now repeat split.
Qed.

(** The lookup returns the first record whose field 1 is the host. *)
Lemma get_host_stat_line_first host lines parts :
  get_host_stat_line host lines = Ok (Some parts) ->
  exists before line after,
    lines = (before ++ line :: after)%list
    /\ parts = Py.split comma line
    /\ nth_error parts 1 = Some host
    /\ Forall (fun l => exists f, nth_error (Py.split comma l) 1 = Some f
                                  /\ f <> host) before.
Proof.
  induction lines as [|line rest IH]; [discriminate|].
  cbn [get_host_stat_line]. cbv zeta.
  destruct (nth_error (Py.split comma line) 1) as [svname|] eqn:E;
    [|discriminate].
  destruct (String.eqb_spec svname host) as [->|Hne].
  - intros [= <-]. exists [], line, rest. now repeat split.
  - intros H. destruct (IH H) as (before & l & after & -> & Hp & H1 & Hall).
    exists (line :: before), l, after. repeat split; try assumption.
    constructor; [|assumption]. eauto.
Qed.

(** And conversely: a record with the host in field 1, after records that
    all have a field 1 and another host there, is what the lookup returns. *)
Lemma get_host_stat_line_complete host before line after :
  nth_error (Py.split comma line) 1 = Some host ->
  Forall (fun l => exists f, nth_error (Py.split comma l) 1 = Some f
                             /\ f <> host) before ->
  get_host_stat_line host (before ++ line :: after)
    = Ok (Some (Py.split comma line)).
Proof.
  intros H1. induction 1 as [|l before (f & Hf & Hne) _ IH].
  - cbn [app get_host_stat_line]. cbv zeta. rewrite H1.
    now rewrite String.eqb_refl.
  - cbn [app get_host_stat_line]. cbv zeta. rewrite Hf.
    apply String.eqb_neq in Hne. now rewrite Hne.
Qed.

(** The sub-commands of a decision are those of [enabled] or of
    [disabled], on the pool and host of the object. *)
Lemma decision_lists h changed subcommands :
  decision h = Ok (changed, subcommands) ->
  (state h = "enabled"
   /\ exists wc sc,
        subcommands = enabled_subcommands (backend h) (host h) (weight h) wc sc)
  \/ (state h = "disabled"
      /\ (subcommands = ["get weight " ++ target (backend h) (host h)]
          \/ exists fl,
               subcommands = disabled_subcommands (backend h) (host h) fl)).
Proof.
  unfold decision.
  destruct (String.eqb_spec (state h) "enabled") as [He|_].
  - destruct (is_weight_changed (weight h) h) as [wc|]; [|discriminate].
    destruct (is_host_in_maintanence_mode h) as [sc|]; [|discriminate].
    cbn [res_bind]. intros [= _ <-]. left. split; [exact He|].
    destruct ((wc || sc) && negb (check_mode h)).
    + now exists wc, sc.
    + now exists false, false.
  - destruct (String.eqb_spec (state h) "disabled") as [Hd|_]; [|discriminate].
    destruct (is_host_in_maintanence_mode h) as [sc|]; [|discriminate].
    cbn [res_bind]. intros [= _ <-]. right. split; [exact Hd|].
    destruct (negb sc && negb (check_mode h)); [right; eauto | now left].
Qed.

Lemma enabled_on_target px member weight wc sc :
  Forall (on_target px member weight)
         (enabled_subcommands (Some px) member weight wc sc).
Proof.
  unfold enabled_subcommands.
  destruct wc, sc; cbn [List.app]; repeat constructor.
Qed.

Lemma disabled_on_target px member weight fl :
  Forall (on_target px member weight)
         (disabled_subcommands (Some px) member fl).
Proof.
  unfold disabled_subcommands.
  destruct fl; cbn [List.app]; repeat constructor.
Qed.

(** The decision for [enabled] on a loaded record. *)
Lemma decision_enabled h attrs status current :
  state h = "enabled" ->
  host_attributes h = Some attrs ->
  nth_error attrs 17 = Some status ->
  nth_error attrs 18 = Some current ->
  exists subcommands,
    decision h
    = Ok (isChangeNeeded (weight h) current || (status =? "MAINT"), subcommands).
Proof.
  intros Hs Ha H17 H18. unfold decision. rewrite Hs, String.eqb_refl.
  rewrite (is_weight_changed_refines _ _ _ _ Ha H18).
  rewrite (get_host_attribute_status _ _ Ha), H17. cbn [res_bind]. eauto.
Qed.

(** C6 (amended). For every request with desired state [enabled], a run
    that observes the member out of maintenance, as the second of two
    successive runs does, reports changed equal to the weight policy on
    the requested weight and the weight string it observes: false when no
    weight is requested, when the observed string equals the requested
    expression, or for the two literal equivalences, and true for any
    other requested weight. *)
Theorem rerun_changed :
  forall (World : Type) (peer : Peer World) (p : Params) (w : World)
         (member output : string) (st1 : St World)
         (attrs : list string) (status current : string),
    p_state p = Some "enabled" ->
    p_host p = Some member ->
    execute peer "show stat" true (mkSt (init "enabled" member p) w [])
      = Done output st1 ->
    get_host_stat_line member (stat_lines output) = Ok (Some attrs) ->
    nth_error attrs 17 = Some status ->
    status <> "MAINT" ->
    nth_error attrs 18 = Some current ->
    exists e st',
      main peer p w = Ran (Raised e st')
      /\ (e = SocketError
          \/ exists out, e = ExitJson out (isChangeNeeded (p_weight p) current)).
Proof.
  intros World peer p w member output st1 attrs status current
         Hs Hh Hexec Hlook H17 Hup H18.
  unfold main. rewrite Hs, Hh.
  change (in_choices ACTION_CHOICES "enabled") with true. cbv iota.
  rewrite act_normal_form, Hexec.
  apply execute_done in Hexec as [_ Hself]. cbn [self] in Hself.
  destruct attrs as [|px rest]; [discriminate H17|].
  destruct (load_found (self st1) output (px :: rest) px) as
    (h & -> & Ha & _ & Hst & _ & Hw & _); [now rewrite Hself | reflexivity |].
  rewrite Hself in Hst, Hw. cbn in Hst, Hw.
  destruct (decision_enabled h _ _ _ Hst Ha H17 H18) as [subs ->].
  rewrite Hw. apply String.eqb_neq in Hup. rewrite Hup, orb_false_r.
  destruct (execute peer (composite subs) true (with_self h st1))
    as [r st2|e2 st2] eqn:E2.
  - eexists _, _. split; [reflexivity|]. right. eauto.
  - apply execute_raised in E2 as [-> _]. eexists _, _. split; [reflexivity|].
    now left.
Qed.

Lemma rerun_changed_witness :
  let p := request "enabled" "web2" (Some "50") None false in
  reported (main Balancer.peer p pool) = Some (Some "100 (initial 100)", true)
  /\ exists out, second_run Balancer.peer p pool = Some (out, false).
Proof.
  intros p. split; [vm_compute; reflexivity|].
  pose (w1 := Balancer.update "www/web2" (Balancer.set_uweight 50) pool).
  assert (Hfirst : peer_after (main Balancer.peer p pool) = Some w1)
    by (vm_compute; reflexivity).
  unfold second_run. rewrite Hfirst.
  pose (st := mkSt (init "enabled" "web2" p) w1 []).
  assert (Hexec : execute Balancer.peer "show stat" true st
                  = Done (Balancer.show_stat w1)
                      (final (execute Balancer.peer "show stat" true st)))
    by (vm_compute; reflexivity).
  assert (Hlook : get_host_stat_line "web2" (stat_lines (Balancer.show_stat w1))
                  = Ok (Some (Py.split comma
                                "www,web2,0,0,0,0,,0,0,0,,0,,0,0,0,0,UP,50,1,0,")))
    by (vm_compute; reflexivity).
  destruct (rerun_changed _ Balancer.peer p w1 "web2" _ _ _ "UP" "50"
              eq_refl eq_refl Hexec Hlook eq_refl ltac:(discriminate) eq_refl)
    as (e & st' & Hrun & [He | [out He]]); subst e.
  - vm_compute in Hrun. discriminate Hrun.
  - exists out. now rewrite Hrun.
Defined.

(** A relative weight other than the two literal ones never settles: the
    dump gives weights as integers, and no string of digits equals "50%". *)
Lemma percent_never_settles (current : string) :
  Forall (fun c => Ascii.eqb c "%" = false) (list_ascii_of_string current) ->
  isChangeNeeded (Some "50%") current = true.
Proof.
  intros Hdigits. unfold isChangeNeeded.
  destruct (String.eqb_spec "50%" current) as [<-|_]; [|reflexivity].
  inversion Hdigits as [|? ? _ H1]; subst. inversion H1 as [|? ? _ H2]; subst.
  inversion H2 as [|? ? H3 _]; subst. discriminate H3.
Qed.

(** C6, as stated, fails for a relative weight: the balancer applies
    "50%" to the configured weight 100 and reports the weight 50, which is
    not the string "50%", so the second run sets the weight again and
    reports changed = true. *)
Lemma percent_rerun_counterexample :
  let p := request "enabled" "web2" (Some "50%") None false in
  reported (main Balancer.peer p pool) = Some (Some "100 (initial 100)", true)
  /\ second_run Balancer.peer p pool = Some (Some "50 (initial 100)", true)
  /\ second_run Balancer.peer p pool <> Some (Some "50 (initial 100)", false).
Proof.
  intros p. split; [reflexivity|]. split; [reflexivity|].
  vm_compute. discriminate.
Qed.

(** C8 (amended). An unrecognized desired-state value is a fatal usage
    error and never a no-op: the argument spec of [main] rejects it before
    any socket is opened, and [act] itself, run with such a state, never
    reports through [exit_json]: once the statistics exchange found the
    record it ends in [fail_json] "unknown state specified", with no
    second line sent. A malformed weight expression is not a usage error,
    the weight is not validated: [main] rejects no request for its weight;
    when the requested string differs from the current weight (the two
    literal equivalences apart), a live [enabled] sends it unchanged in
    [set weight] and returns changed = true, and a dry-run [enabled] sends
    the query alone and returns changed = true; [disabled] on a member in
    maintenance sends the query alone and returns changed = false,
    whatever the weight. *)
Theorem usage_errors :
  forall (World : Type) (peer : Peer World),
    (forall (p : Params) (w : World) (s : string),
        p_state p = Some s ->
        in_choices ACTION_CHOICES s = false ->
        exists param, main peer p w = Rejected param)
    /\ (forall (st : St World) e st',
           in_choices ACTION_CHOICES (state (self st)) = false ->
           act peer st = Raised e st' ->
           (forall out changed, e <> ExitJson out changed)
           /\ (e = SocketError \/ e = TypeError \/ e = IndexError
               \/ e = FailJson ("unknown state specified: '"
                                ++ state (self st) ++ "'")))
    /\ (forall (st : St World) (output : string) (st1 : St World)
               (attrs : list string),
           in_choices ACTION_CHOICES (state (self st)) = false ->
           execute peer "show stat" true st = Done output st1 ->
           get_host_stat_line (host (self st)) (stat_lines output)
             = Ok (Some attrs) ->
           exists st',
             act peer st
             = Raised (FailJson ("unknown state specified: '"
                                 ++ state (self st) ++ "'")) st'
             /\ trace st' = trace st1)
    /\ (forall (p : Params) (w : World) (param : string),
           main peer p w = Rejected param ->
           param = "state" \/ param = "host")
    /\ (forall (st : St World) (r : string) (attrs : list string)
               (current : string) (in_maintenance : bool),
           weight (self st) = Some r ->
           host_attributes (self st) = Some attrs ->
           nth_error attrs 18 = Some current ->
           isChangeNeeded (Some r) current = true ->
           is_host_in_maintanence_mode (self st) = Ok in_maintenance ->
           (check_mode (self st) = false ->
            In ("set weight " ++ target (backend (self st)) (host (self st))
                ++ " " ++ r)
               (enabled_subcommands (backend (self st)) (host (self st)) (Some r)
                  true in_maintenance)
            /\ enabled peer st =
                 then_ret
                   (execute peer
                      (composite
                         (enabled_subcommands (backend (self st))
                            (host (self st)) (Some r) true in_maintenance))
                      true)
                   true st)
           /\ (check_mode (self st) = true ->
               enabled peer st =
                 then_ret
                   (execute peer
                      ("get weight "
                       ++ target (backend (self st)) (host (self st))) true)
                   true st))
    /\ (forall (st : St World),
           is_host_in_maintanence_mode (self st) = Ok true ->
           disabled peer st =
             then_ret
               (execute peer
                  ("get weight " ++ target (backend (self st)) (host (self st)))
                  true)
               false st).
Proof.
  intros World peer. split; [|split; [|split; [|split; [|split]]]].
  - intros p w s Hs Hc. unfold main. rewrite Hs, Hc.
    destruct (p_host p); eauto.
  - intros st e st' Hc Hact. apply act_shape in Hact. cbv zeta in Hact.
    destruct Hact as [[-> _] | (k & output & h & o & L & H)].
    { split; [discriminate | auto]. }
    pose proof (load_frame _ _ _ _ L) as (Hst & _). cbn in Hst.
    rewrite <- Hst in Hc.
    destruct H as [(-> & _) | [(_ & D & _) | (_ & c & subs & D & _)]].
    + apply load_error in L as [-> | ->]; (split; [discriminate | auto]).
    + rewrite (decision_unknown_state h Hc) in D. injection D as <-.
      rewrite Hst. split; [discriminate | auto].
    + rewrite (decision_unknown_state h Hc) in D. discriminate D.
  - intros st output st1 attrs Hc Hexec Hlook.
    rewrite act_normal_form, Hexec.
    apply execute_done in Hexec as [_ Hself]. cbn [self] in Hself.
    destruct attrs as [|p0 rest].
    { apply get_host_stat_line_first in Hlook as (_ & line & _ & _ & Hp & _).
      symmetry in Hp. now apply split_nonempty in Hp. }
    destruct (load_found (self st1) output (p0 :: rest) p0) as
      (h & -> & _ & _ & Hst & _); [now rewrite Hself | reflexivity |].
    rewrite Hself in Hst. cbn in Hst. rewrite <- Hst in Hc.
    rewrite (decision_unknown_state h Hc), Hst.
    eexists. split; reflexivity.
  - intros p w param. unfold main.
    destruct (p_state p) as [s|]; [|intros [= <-]; auto].
    destruct (p_host p) as [h|]; [|intros [= <-]; auto].
    destruct (in_choices ACTION_CHOICES s); [discriminate | intros [= <-]; auto].
  - intros st r attrs current sc Hw Ha H18 Hneed Hs.
    pose proof (is_weight_changed_refines _ _ (Some r) _ Ha H18) as Hwc.
    rewrite Hneed, <- Hw in Hwc.
    pose proof (enabled_run peer st true sc Hwc Hs) as E. cbv zeta in E.
    split.
    + intros Hc. split.
      * unfold enabled_subcommands. right. now left.
      * now rewrite E, Hc, Hw.
    + intros Hc. now rewrite E, Hc.
  - intros st Hs. exact (disabled_run peer st true Hs).
Qed.

Lemma usage_errors_witness :
  let st := fresh "restarted" "web1" (Some "abc") None false pool in
  main Balancer.peer (request "restarted" "web1" None None false) pool
  = Rejected "state"
  /\ exists st',
       act Balancer.peer st
       = Raised (FailJson "unknown state specified: 'restarted'") st'
       /\ sent (trace st') = ["show stat" ++ LF].
Proof.
  intros st.
  destruct (usage_errors _ Balancer.peer) as (Hstate & _ & Hact & Hparam & _).
  split.
  - destruct (Hstate (request "restarted" "web1" None None false) pool "restarted"
                eq_refl eq_refl) as [param Hrej].
    rewrite Hrej. destruct (Hparam _ _ _ Hrej) as [-> | ->]; [reflexivity|].
    vm_compute in Hrej. discriminate Hrej.
  - assert (Hexec : execute Balancer.peer "show stat" true st
                    = Done (Balancer.show_stat pool)
                        (final (execute Balancer.peer "show stat" true st)))
      by (vm_compute; reflexivity).
    assert (Hlook :
      get_host_stat_line "web1" (stat_lines (Balancer.show_stat pool))
      = Ok (Some (Py.split comma
                    "www,web1,0,0,0,0,,0,0,0,,0,,0,0,0,0,MAINT,1,1,0,")))
      by (vm_compute; reflexivity).
    destruct (Hact st _ _ _ eq_refl Hexec Hlook) as (st' & Hrun & Htrace).
    exists st'. split; [exact Hrun|]. rewrite Htrace. vm_compute. reflexivity.
Defined.

(** C8, as stated, fails for weights: "300" is outside 0..256 and "150%"
    outside 0%..100%, yet neither is refused; each is sent to the balancer
    in a [set weight] command and the run reports changed = true. *)
Lemma malformed_weight_counterexample :
  let absolute := main Balancer.peer
                    (request "enabled" "web2" (Some "300") None false) pool in
  let relative := main Balancer.peer
                    (request "enabled" "web2" (Some "150%") None false) pool in
  (exists out, reported absolute = Some (out, true))
  /\ sent (calls absolute)
     = ["show stat" ++ LF; "get weight www/web2; set weight www/web2 300" ++ LF]
  /\ (exists out, reported relative = Some (out, true))
  /\ sent (calls relative)
     = ["show stat" ++ LF; "get weight www/web2; set weight www/web2 150%" ++ LF].
Proof.
  intros absolute relative.
  split; [eexists; vm_compute; reflexivity|].
  split; [vm_compute; reflexivity|].
  split; [eexists; vm_compute; reflexivity|].
  vm_compute; reflexivity.
Qed.

(** C10. The member lookup compares field 1 of each comma-split record
    with the target host and returns the first record that matches; when
    no pool name was given, the pool name is field 0 of that record, and
    the line [act] then sends is made of the sub-commands of [enabled] or
    of [disabled] on that pool and the host: each of them is one of the
    module's verbs applied to that one target. *)
Theorem first_match_pool :
  forall (member : string) (lines parts : list string),
    (get_host_stat_line member lines = Ok (Some parts) <->
     exists before line after,
       lines = (before ++ line :: after)%list
       /\ parts = Py.split comma line
       /\ nth_error parts 1 = Some member
       /\ Forall (fun l => exists f, nth_error (Py.split comma l) 1 = Some f
                                     /\ f <> member) before)
    /\ (get_host_stat_line member lines = Ok (Some parts) ->
        exists px,
         nth_error parts 0 = Some px
         /\ forall (World : Type) (peer : Peer World) (st : St World)
                   (output : string) (st1 : St World) (e : exn) (st' : St World),
              host (self st) = member ->
              backend (self st) = None ->
              trace st = [] ->
              execute peer "show stat" true st = Done output st1 ->
              stat_lines output = lines ->
              act peer st = Raised e st' ->
              backend (self st') = Some px
              /\ (sent (trace st') = ["show stat" ++ LF]
                  \/ exists subcommands,
                       sent (trace st')
                       = ["show stat" ++ LF; composite subcommands ++ LF]
                       /\ Forall (on_target px member (weight (self st)))
                                 subcommands
                       /\ ((state (self st) = "enabled"
                            /\ exists wc sc,
                                 subcommands
                                 = enabled_subcommands (Some px) member
                                     (weight (self st)) wc sc)
                           \/ (state (self st) = "disabled"
                               /\ (subcommands
                                   = ["get weight " ++ target (Some px) member]
                                   \/ exists fl,
                                        subcommands
                                        = disabled_subcommands (Some px)
                                            member fl))))).
Proof.
  intros member lines parts. split.
  { split; [apply get_host_stat_line_first|].
    intros (before & line & after & -> & -> & H1 & Hall).
    now apply get_host_stat_line_complete. }
  intros Hlook. destruct parts as [|px rest].
  { apply get_host_stat_line_first in Hlook as (_ & line & _ & _ & Hp & _).
    symmetry in Hp. now apply split_nonempty in Hp. }
  exists px. split; [reflexivity|].
  intros World peer st output st1 e st' Hhost Hback Hnil Hexec Hlines Hact.
  rewrite act_normal_form, Hexec in Hact.
  apply execute_done in Hexec as [[k Ht] Hself]. rewrite Hnil in Ht.
  cbn [app] in Ht.
  pose proof (cycle_counts (socket (self st)) ("show stat" ++ LF) (S k))
    as (_ & _ & Hs).
  destruct (load_found (self st1) output (px :: rest) px) as
    (h & L & _ & Hb & Hst & Hh & Hw & _); [| reflexivity |].
  { rewrite Hself. cbn [host set_command_results]. now rewrite Hhost, Hlines. }
  rewrite L in Hact. rewrite Hself in Hb, Hh, Hst, Hw.
  cbn [backend host state weight set_command_results] in Hb, Hh, Hst, Hw.
  rewrite Hback in Hb. rewrite Hhost in Hh.
  destruct (decision h) as [[c subs]|e0] eqn:D.
  2:{ injection Hact as <- <-. split; [exact Hb|]. left.
      cbn [with_self trace]. now rewrite Ht. }
  pose proof (decision_lists h c subs D) as Hlists.
  rewrite Hb, Hh, Hst, Hw in Hlists.
  assert (Hon : Forall (on_target px member (weight (self st))) subs).
  { destruct Hlists as [(_ & wc & sc & ->) | (_ & [-> | (fl & ->)])].
    - apply enabled_on_target.
    - repeat constructor.
    - apply disabled_on_target. }
  destruct (execute peer (composite subs) true (with_self h st1))
    as [r st2|e2 st2] eqn:E2.
  - injection Hact as <- <-. apply execute_done in E2 as [[k2 Ht2] Hself2].
    cbn [with_self self trace] in Ht2, Hself2. split.
    + now rewrite Hself2.
    + right. exists subs. split; [|now split].
      rewrite Ht2, Ht, sent_app, Hs.
      now destruct (cycle_counts (socket h) (composite subs ++ LF) (S k2))
        as (_ & _ & ->).
  - injection Hact as <- <-.
    apply execute_raised in E2 as (_ & Hself2 & tr & Hi & Ht2).
    cbn [with_self self trace] in Ht2, Hself2, Hi. split.
    + now rewrite Hself2.
    + rewrite Ht2, Ht, sent_app, Hs.
      apply interrupted_counts in Hi as (_ & _ & [-> | ->]); [now left|].
      right. exists subs. now repeat split.
Qed.

Lemma first_match_pool_witness :
  let st := fresh "enabled" "web1" None None false pool in
  get_host_stat_line "web1" (stat_lines (Balancer.show_stat pool))
  = Ok (Some (Py.split comma "www,web1,0,0,0,0,,0,0,0,,0,,0,0,0,0,MAINT,1,1,0,"))
  /\ backend (self (final (act Balancer.peer st))) = Some "www"
  /\ sent (trace (final (act Balancer.peer st)))
     = ["show stat" ++ LF; "get weight www/web1; enable server www/web1" ++ LF].
Proof.
  intros st.
  assert (Hlook :
    get_host_stat_line "web1" (stat_lines (Balancer.show_stat pool))
    = Ok (Some (Py.split comma "www,web1,0,0,0,0,,0,0,0,,0,,0,0,0,0,MAINT,1,1,0,")))
    by (vm_compute; reflexivity).
  split; [exact Hlook|].
  destruct (first_match_pool "web1" (stat_lines (Balancer.show_stat pool))
              (Py.split comma "www,web1,0,0,0,0,,0,0,0,,0,,0,0,0,0,MAINT,1,1,0,"))
    as [_ Hpool].
  destruct (Hpool Hlook) as (px & Hpx & Hrun).
  vm_compute in Hpx. injection Hpx as <-.
  assert (Hexec : execute Balancer.peer "show stat" true st
                  = Done (Balancer.show_stat pool)
                      (final (execute Balancer.peer "show stat" true st)))
    by (vm_compute; reflexivity).
  assert (Hact : act Balancer.peer st
                 = Raised (ExitJson (Some "1 (initial 1)") true)
                     (final (act Balancer.peer st)))
    by (vm_compute; reflexivity).
  destruct (Hrun _ Balancer.peer st _ _ _ _ eq_refl eq_refl eq_refl Hexec
              eq_refl Hact) as [Hb _].
  split; [exact Hb | vm_compute; reflexivity].
Defined.

(** * Further properties of the module *)

(** ** Reassembly of the reply in [execute] *)

Lemma concat_cons (x : string) (xs : list string) :
  String.concat "" (x :: xs) = x ++ String.concat "" xs.
Proof.
  destruct xs as [|y ys]; [simpl; now rewrite append_nil_r | reflexivity].
Qed.

Lemma recv_loop_chunks {World : Type} (chunks : list string) :
  forall (junk : list recv_result) (acc : string) (st : St World),
    Forall (fun c => c <> "") chunks ->
    junk = [] \/ (exists rest, junk = Chunk "" :: rest) ->
    recv_loop (map Chunk chunks ++ junk)%list acc st
    = Done (acc ++ String.concat "" chunks)
        (mkSt (self st) (net st)
           (trace st ++ repeat EvRecv (S (length chunks)))%list).
Proof.
  induction chunks as [|c chunks IH]; intros junk acc st Hne Hjunk.
  - simpl. rewrite append_nil_r.
    destruct Hjunk as [-> | [rest ->]]; reflexivity.
  - inversion Hne as [|? ? Hc Hrest]; subst.
    destruct c as [|a c]; [now elim Hc|].
    cbn [map app recv_loop]. unfold bind at 1, emit at 1.
    rewrite (IH junk _ _ Hrest Hjunk). cbn [self net trace length].
    rewrite concat_cons, append_assoc, <- app_assoc. reflexivity.
Qed.

(** X1. Whatever way the reply arrives in pieces, a completed [execute]
    returns the pieces joined in order, makes one [recv] call per piece
    and one more that sees the end of the stream, and never asks for what
    would come after an empty piece. *)
Theorem execute_reassembles :
  forall (World : Type) (peer : Peer World) (cmd : string) (log : bool)
         (st : St World) (w1 w2 : World) (chunks : list string)
         (junk : list recv_result),
    peer_connect peer (net st) (socket (self st)) = Some w1 ->
    peer_sendall peer w1 (cmd ++ LF) = Some (w2, (map Chunk chunks ++ junk)%list) ->
    Forall (fun c => c <> "") chunks ->
    junk = [] \/ (exists rest, junk = Chunk "" :: rest) ->
    exists st',
      execute peer cmd log st = Done (String.concat "" chunks) st'
      /\ net st' = w2
      /\ trace st' = (trace st ++ cycle (socket (self st)) (cmd ++ LF)
                                    (S (length chunks)))%list
      /\ command_results (self st')
         = if log then Some (Py.strip (String.concat "" chunks))
           else command_results (self st).
Proof.
  intros World peer cmd log st w1 w2 chunks junk Hc Hs Hne Hjunk.
  unfold execute, bind, emit, get_self, get_net, put_net.
  cbn [self net trace]. rewrite Hc. cbn [self net trace]. rewrite Hs.
  cbn [self net trace]. rewrite (recv_loop_chunks chunks junk _ _ Hne Hjunk).
  cbn [self net trace append].
  destruct log; eexists; (split; [reflexivity|]); cbn;
    (split; [reflexivity|]); (split; [|reflexivity]);
    unfold cycle; rewrite <- !app_assoc; reflexivity.
Qed.

Lemma execute_reassembles_witness :
  let peer := canned [Chunk "1 (init"; Chunk "ial 1)"; Chunk ""; RecvFail] in
  let st := mkSt (init "enabled" "web1" (request "enabled" "web1" None None false))
              tt [] in
  exists st',
    execute peer "get weight www/web1" true st = Done "1 (initial 1)" st'
    /\ command_results (self st') = Some "1 (initial 1)"
    /\ length (trace st') = 7.
Proof.
  intros peer st.
  destruct (execute_reassembles unit peer "get weight www/web1" true st tt tt
              ["1 (init"; "ial 1)"] [Chunk ""; RecvFail] eq_refl eq_refl)
    as (st' & Hrun & _ & Htrace & Hlog).
  - repeat constructor; discriminate.
  - right. now eexists.
  - exists st'. split; [exact Hrun|]. split; [exact Hlog|].
    now rewrite Htrace.
Defined.

(** ** The parser on a dump in the protocol's shape *)

Lemma no_separator_split (sep : ascii) (s : string) :
  free_of sep s -> Py.split sep s = [s].
Proof.
  induction s as [|a s IH]; [reflexivity|].
  intros H. inversion H as [|? ? Ha Hs]; subst.
  cbn [Py.split]. rewrite Ha. now rewrite (IH Hs).
Qed.

Lemma split_app_free (sep : ascii) (x s : string) :
  free_of sep x ->
  Py.split sep (x ++ String sep s) = x :: Py.split sep s.
Proof.
  induction x as [|a x IH]; intros H.
  - cbn [append Py.split]. now rewrite Ascii.eqb_refl.
  - inversion H as [|? ? Ha Hx]; subst.
    cbn [append Py.split]. rewrite Ha. now rewrite (IH Hx).
Qed.

(** Joining lines that hold no separator and splitting again gives the
    lines back. *)
Lemma split_concat (sep : ascii) (l : list string) :
  l <> [] ->
  Forall (free_of sep) l ->
  Py.split sep (String.concat (String sep "") l) = l.
Proof.
  induction l as [|x l IH]; intros Hne Hall; [now elim Hne|].
  inversion Hall as [|? ? Hx Hl]; subst.
  destruct l as [|y ys].
  - cbn [String.concat]. now apply no_separator_split.
  - change (String.concat (String sep "") (x :: y :: ys))
      with (x ++ String sep (String.concat (String sep "") (y :: ys))).
    rewrite (split_app_free _ _ _ Hx). f_equal. now apply IH.
Qed.

Lemma rstrip_spaces (p : ascii -> bool) (a t : string) :
  Forall (fun c => p c = true) (list_ascii_of_string t) ->
  Py.rstrip p (a ++ t) = Py.rstrip p a.
Proof.
  intros Ht. induction a as [|x a IH].
  - cbn [append Py.rstrip]. induction t as [|c t IHt]; [reflexivity|].
    inversion Ht as [|? ? Hc Hrest]; subst.
    cbn [Py.rstrip]. now rewrite (IHt Hrest), Hc.
  - cbn [append Py.rstrip]. now rewrite IH.
Qed.

Lemma rstrip_clean (p : ascii -> bool) (b : string) (c : ascii) :
  p c = false ->
  Py.rstrip p (b ++ String c "") = b ++ String c "".
Proof.
  intros Hc. induction b as [|x b IH].
  - cbn [append Py.rstrip]. now rewrite Hc.
  - cbn [append Py.rstrip]. rewrite IH. now destruct b.
Qed.

Lemma last_cons {A : Type} (r : A) (rs : list A) (d : A) :
  last (r :: rs) d = last rs r.
Proof.
  revert r d. induction rs as [|x rs IH]; intros r d; [reflexivity|].
  change (last (r :: x :: rs) d) with (last (x :: rs) d).
  now rewrite (IH x d), (IH x r).
Qed.

Lemma concat_ends_clean (sep : string) (records : list string) :
  forall header,
    ends_clean (last records header) ->
    ends_clean (String.concat sep (header :: records)).
Proof.
  induction records as [|r rs IH]; intros header H; [exact H|].
  rewrite last_cons in H. destruct (IH r H) as (b & c & Hb & Hc).
  exists (header ++ sep ++ b), c. split; [|exact Hc].
  change (String.concat sep (header :: r :: rs))
    with (header ++ sep ++ String.concat sep (r :: rs)).
  now rewrite Hb, !append_assoc.
Qed.

(** X2. On a reply in the protocol's shape, [get_stat_output] returns
    the header and the records, one per line: when the reply is the
    comment marker "# ", then a header and records joined by newlines,
    then white space only, the result is the header without the marker
    followed by the records, whatever the [log] argument. The header is
    the first line of the result; it is not skipped. *)
Theorem get_stat_output_parses :
  forall (World : Type) (peer : Peer World) (log : bool) (st : St World)
         (reply : string) (st' : St World)
         (header : string) (records : list string) (trailing : string),
    execute peer "show stat" true st = Done reply st' ->
    reply = "# " ++ String.concat LF (header :: records) ++ trailing ->
    Forall (free_of lf) (header :: records) ->
    starts_clean header ->
    ends_clean (last records header) ->
    Forall (fun c => Py.is_space c = true) (list_ascii_of_string trailing) ->
    get_stat_output peer log st = Done (header :: records) st'.
Proof.
  intros World peer log st reply st' header records trailing
         Hexec -> Hfree (c & h' & -> & Hsp & Hmark) Hend Htrail.
  unfold get_stat_output, bind, ret. rewrite Hexec. f_equal.
  set (body := String.concat LF (String c h' :: records)).
  assert (Hbody : exists rest, body = String c rest).
  { subst body. destruct records; cbn [String.concat append]; eauto. }
  destruct Hbody as [rest Hbody].
  assert (Hl : Py.lstrip (Py.in_chars "# ") ("# " ++ body ++ trailing)
               = body ++ trailing).
  { rewrite Hbody. cbn [append Py.lstrip].
    change (Py.in_chars "# " "#"%char) with true.
    change (Py.in_chars "# " " "%char) with true.
    cbv iota. now rewrite Hmark. }
  rewrite Hl. unfold Py.strip. rewrite (rstrip_spaces _ _ _ Htrail).
  destruct (concat_ends_clean LF records (String c h') Hend)
    as (b & c' & Hb & Hc').
  fold body in Hb. rewrite Hb, (rstrip_clean _ _ _ Hc'), <- Hb, Hbody.
  cbn [Py.lstrip]. rewrite Hsp, <- Hbody. subst body.
  apply (split_concat lf); [discriminate | exact Hfree].
Qed.

Lemma get_stat_output_parses_witness :
  let st := fresh "enabled" "web1" None None false pool in
  exists st',
    get_stat_output Balancer.peer false st
    = Done ["pxname,svname,qcur,qmax,scur,smax,slim,stot,bin,bout,dreq,dresp,"
            ++ "ereq,econ,eresp,wretr,wredis,status,weight,act,bck,";
            "www,web1,0,0,0,0,,0,0,0,,0,,0,0,0,0,MAINT,1,1,0,";
            "api,web1,0,0,0,0,,0,0,0,,0,,0,0,0,0,UP,1,1,0,";
            "www,web2,0,0,0,0,,0,0,0,,0,,0,0,0,0,UP,100,1,0,"] st'
    /\ command_results (self st')
       = Some (Py.strip (Balancer.show_stat pool)).
Proof.
  intros st.
  pose (st' := final (execute Balancer.peer "show stat" true st)).
  assert (Hexec : execute Balancer.peer "show stat" true st
                  = Done (Balancer.show_stat pool) st')
    by (vm_compute; reflexivity).
  exists st'. split; [|vm_compute; reflexivity].
  apply (get_stat_output_parses _ Balancer.peer false st
           (Balancer.show_stat pool) st' _ _ (LF ++ LF) Hexec).
  - vm_compute. reflexivity.
  - vm_compute. repeat constructor.
  - eexists _, _. split; [reflexivity|]. split; vm_compute; reflexivity.
  - exists "www,web2,0,0,0,0,,0,0,0,,0,,0,0,0,0,UP,100,1,0", ","%char.
    split; vm_compute; reflexivity.
  - vm_compute. repeat constructor.
Defined.

(** ** A line without a comma *)

(** X3. The lookup subscripts field 1 of every line it passes: a line
    without a comma that comes before any record of the host raises
    [IndexError], whatever follows it, and [act] then ends with that
    exception right after the statistics exchange. An empty reply is such
    a dump, its only line being the empty one. *)
Theorem malformed_line_first :
  forall (member : string) (before : list string) (bad : string)
         (after : list string),
    Forall (fun l => exists f, nth_error (Py.split comma l) 1 = Some f
                               /\ f <> member) before ->
    free_of comma bad ->
    get_host_stat_line member (before ++ bad :: after) = Err IndexError
    /\ forall (World : Type) (peer : Peer World) (st : St World)
              (output : string) (st1 : St World),
         host (self st) = member ->
         execute peer "show stat" true st = Done output st1 ->
         stat_lines output = (before ++ bad :: after)%list ->
         act peer st = Raised IndexError st1.
Proof.
  intros member before bad after Hbefore Hbad.
  assert (Hlook : get_host_stat_line member (before ++ bad :: after)
                  = Err IndexError).
  { induction Hbefore as [|l before (f & Hf & Hne) _ IH].
    - cbn [app get_host_stat_line]. cbv zeta.
      now rewrite (no_separator_split _ _ Hbad).
    - cbn [app get_host_stat_line]. cbv zeta. rewrite Hf.
      apply String.eqb_neq in Hne. now rewrite Hne. }
  split; [exact Hlook|].
  intros World peer st output st1 Hhost Hexec Hlines.
  rewrite act_normal_form, Hexec.
  apply execute_done in Hexec as [_ Hself].
  unfold load. rewrite Hself. cbn [host set_command_results].
  rewrite Hhost, Hlines, Hlook. rewrite <- Hself. now destruct st1.
Qed.

Lemma malformed_line_first_witness :
  let st := mkSt (init "enabled" "web1" (request "enabled" "web1" None None false))
              tt [] in
  exists st1,
    act (canned []) st = Raised IndexError st1
    /\ sent (trace st1) = ["show stat" ++ LF]
    /\ command_results (self st1) = Some "".
Proof.
  intros st.
  pose (st1 := final (execute (canned []) "show stat" true st)).
  destruct (malformed_line_first "web1" [] "" []) as [_ Hact];
    [constructor | constructor |].
  exists st1. split; [|split; reflexivity].
  apply (Hact unit (canned []) st ""); reflexivity.
Defined.

(** ** Relative weights *)

(** X4. The weight policy never settles on a relative weight: when the
    requested expression holds a percent sign and the current weight of
    the record holds none, [is_weight_changed] answers true, the two
    literal pairs apart. *)
Theorem relative_weight_always_changes :
  forall (self : HAProxy) (attrs : list string) (r current : string),
    host_attributes self = Some attrs ->
    nth_error attrs 18 = Some current ->
    ~ free_of "%" r ->
    free_of "%" current ->
    is_weight_changed (Some r) self
    = Ok (negb ((r =? "100%") && (current =? "1")
                || (r =? "0%") && (current =? "0"))).
Proof.
  intros self attrs r current Ha H18 Hr Hc.
  unfold is_weight_changed.
  rewrite (get_host_attribute_weight _ _ Ha), H18. cbn [res_bind].
  assert (Hne : (r =? current) = false).
  { apply String.eqb_neq. intros ->. contradiction. }
  rewrite Hne.
  destruct ((r =? "100%") && (current =? "1")); [reflexivity|].
  now destruct ((r =? "0%") && (current =? "0")).
Qed.

Lemma relative_weight_always_changes_witness :
  let member w := self (loaded "enabled" "web1" "www" None (Py.Bool false) false
                          (record "www" "web1" "UP" w) pool) in
  is_weight_changed (Some "100%") (member "10") = Ok true
  /\ is_weight_changed (Some "100%") (member "1") = Ok false.
Proof.
  intros member.
  assert (Hrel : ~ free_of "%" "100%").
  { intros H. inversion H as [|? ? _ H1]; subst.
    inversion H1 as [|? ? _ H2]; subst. inversion H2 as [|? ? _ H3]; subst.
    inversion H3 as [|? ? H4 _]; subst. discriminate H4. }
  split.
  - apply (relative_weight_always_changes (member "10")
             (record "www" "web1" "UP" "10") "100%" "10" eq_refl eq_refl Hrel).
    repeat constructor.
  - apply (relative_weight_always_changes (member "1")
             (record "www" "web1" "UP" "1") "100%" "1" eq_refl eq_refl Hrel).
    repeat constructor.
Defined.

(** ** The whole run on a record that was found *)

(** The decision on a loaded record, with its sub-commands. *)
Lemma decision_enabled_line h attrs status current :
  state h = "enabled" ->
  host_attributes h = Some attrs ->
  nth_error attrs 17 = Some status ->
  nth_error attrs 18 = Some current ->
  let wc := isChangeNeeded (weight h) current in
  let sc := status =? "MAINT" in
  decision h
  = Ok (wc || sc,
        if (wc || sc) && negb (check_mode h)
        then enabled_subcommands (backend h) (host h) (weight h) wc sc
        else ["get weight " ++ target (backend h) (host h)]).
Proof.
  intros Hs Ha H17 H18. unfold decision. rewrite Hs, String.eqb_refl.
  rewrite (is_weight_changed_refines _ _ _ _ Ha H18).
  now rewrite (get_host_attribute_status _ _ Ha), H17.
Qed.

Lemma decision_disabled_line h attrs status :
  state h = "disabled" ->
  host_attributes h = Some attrs ->
  nth_error attrs 17 = Some status ->
  let sc := status =? "MAINT" in
  decision h
  = Ok (negb sc,
        if negb sc && negb (check_mode h)
        then disabled_subcommands (backend h) (host h)
               (Py.truthy (shutdown_sessions h))
        else ["get weight " ++ target (backend h) (host h)]).
Proof.
  intros Hs Ha H17. unfold decision. rewrite Hs.
  change ("disabled" =? "enabled") with false. rewrite String.eqb_refl.
  now rewrite (get_host_attribute_status _ _ Ha), H17.
Qed.

Lemma raised_inj {World A : Type} (e1 e2 : exn) (s1 s2 : St World) :
  @Raised World A e1 s1 = Raised e2 s2 -> e1 = e2 /\ s1 = s2.
Proof. intros H. now injection H. Qed.

(** What is left of [act] after the Load step and the decision: the
    second exchange and the report. *)
Lemma act_second_exchange {World : Type} (peer : Peer World) (st : St World)
    (output : string) (st1 : St World) (h : HAProxy)
    (changed : bool) (subcommands : list string) :
  execute peer "show stat" true st = Done output st1 ->
  load (self st1) output = (h, None) ->
  decision h = Ok (changed, subcommands) ->
  exists e st',
    act peer st = Raised e st'
    /\ ((exists r, e = ExitJson (Some (Py.strip r)) changed
                   /\ sent (trace st')
                      = List.app (sent (trace st1)) [composite subcommands ++ LF])
        \/ (e = SocketError
            /\ (sent (trace st') = sent (trace st1)
                \/ sent (trace st')
                   = List.app (sent (trace st1)) [composite subcommands ++ LF]))).
Proof.
  intros Hexec L D. rewrite act_normal_form, Hexec, L, D.
  destruct (execute peer (composite subcommands) true (with_self h st1))
    as [r st2|e2 st2] eqn:E2.
  - apply execute_done in E2 as [[k Ht] Hself]. cbn [with_self self trace] in *.
    eexists _, _. split; [reflexivity|]. left. exists r. rewrite Hself. cbn.
    split; [reflexivity|]. rewrite Ht, sent_app.
    now destruct (cycle_counts (socket h) (composite subcommands ++ LF) (S k))
      as (_ & _ & ->).
  - apply execute_raised in E2 as (-> & _ & tr & Hi & Ht).
    cbn [with_self self trace] in *.
    eexists _, _. split; [reflexivity|]. right. split; [reflexivity|].
    rewrite Ht, sent_app.
    apply interrupted_counts in Hi as (_ & _ & [-> | ->]);
      [left; apply app_nil_r | now right].
Qed.

(** X5. A run for the state [enabled] that finds a record for the host
    reports changed = (weight policy on the record's weight) or (status is
    MAINT), and the one line it sends after the statistics query names the
    pool that was given, or else field 0 of the record: the query alone on
    the no-op and dry-run paths, the composite otherwise. The record is
    the first one for the host name; its own pool name is not compared
    with the pool that was given. *)
Theorem act_enabled_line :
  forall (World : Type) (peer : Peer World) (st : St World) (output : string)
         (st1 : St World) (attrs : list string) (status current : string),
    state (self st) = "enabled" ->
    execute peer "show stat" true st = Done output st1 ->
    get_host_stat_line (host (self st)) (stat_lines output) = Ok (Some attrs) ->
    nth_error attrs 17 = Some status ->
    nth_error attrs 18 = Some current ->
    let px := Some (pool_of (self st) attrs) in
    let wc := isChangeNeeded (weight (self st)) current in
    let sc := status =? "MAINT" in
    let line :=
      composite
        (if (wc || sc) && negb (check_mode (self st))
         then enabled_subcommands px (host (self st)) (weight (self st)) wc sc
         else ["get weight " ++ target px (host (self st))]) in
    exists e st',
      act peer st = Raised e st'
      /\ ((exists r, e = ExitJson (Some (Py.strip r)) (wc || sc)
                     /\ sent (trace st')
                        = List.app (sent (trace st1)) [line ++ LF])
          \/ (e = SocketError
              /\ (sent (trace st') = sent (trace st1)
                  \/ sent (trace st')
                     = List.app (sent (trace st1)) [line ++ LF]))).
Proof.
  intros World peer st output st1 attrs status current
         Hs Hexec Hlook H17 H18 px wc sc line.
  pose proof Hexec as Hdone. apply execute_done in Hdone as [_ Hself].
  cbn [self] in Hself.
  destruct attrs as [|p0 rest]; [discriminate H17|].
  destruct (load_found (self st1) output (p0 :: rest) p0) as
    (h & L & Ha & Hb & Hst & Hh & Hw & _ & Hc); [now rewrite Hself | reflexivity |].
  rewrite Hself in Hb, Hst, Hh, Hw, Hc. cbn in Hb, Hst, Hh, Hw, Hc.
  rewrite Hs in Hst.
  pose proof (decision_enabled_line h _ _ _ Hst Ha H17 H18) as D.
  cbv zeta in D. rewrite Hb, Hh, Hw, Hc in D.
  exact (act_second_exchange peer st output st1 h _ _ Hexec L D).
Qed.

Lemma act_enabled_line_witness :
  let p := request_in "enabled" "web1" "api" None None false in
  reported (main Balancer.peer p pool) = Some (Some "1 (initial 1)", true)
  /\ sent (calls (main Balancer.peer p pool))
     = ["show stat" ++ LF; "get weight api/web1; enable server api/web1" ++ LF].
Proof.
  intros p.
  pose (st := mkSt (init "enabled" "web1" p) pool []).
  assert (Hexec : execute Balancer.peer "show stat" true st
                  = Done (Balancer.show_stat pool)
                      (final (execute Balancer.peer "show stat" true st)))
    by (vm_compute; reflexivity).
  assert (Hlook : get_host_stat_line "web1" (stat_lines (Balancer.show_stat pool))
                  = Ok (Some (Py.split comma
                                "www,web1,0,0,0,0,,0,0,0,,0,,0,0,0,0,MAINT,1,1,0,")))
    by (vm_compute; reflexivity).
  assert (Hrun : act Balancer.peer st
                 = Raised (ExitJson (Some "1 (initial 1)") true)
                     (final (act Balancer.peer st)))
    by (vm_compute; reflexivity).
  destruct (act_enabled_line _ Balancer.peer st _ _ _ "MAINT" "1"
              eq_refl Hexec Hlook eq_refl eq_refl)
    as (e & st' & Hact & Hcases).
  rewrite Hrun in Hact. apply raised_inj in Hact as [<- <-].
  change (main Balancer.peer p pool) with (Ran (act Balancer.peer st)).
  rewrite Hrun. cbn [reported calls]. split; [reflexivity|].
  destruct Hcases as [(r & _ & Hsent) | (He & _)]; [|discriminate He].
  rewrite Hsent. vm_compute. reflexivity.
Defined.

(** X6. A run for the state [disabled] that finds a record for the host
    reports changed = (status is not MAINT); the requested weight plays no
    part. The line it sends after the statistics query is the query alone
    when the member is in maintenance or in a dry run, and otherwise the
    query, [disable server] and, when the [shutdown_sessions] parameter is
    true in Python's sense (any non-empty text is), [shutdown sessions
    server]. *)
Theorem act_disabled_line :
  forall (World : Type) (peer : Peer World) (st : St World) (output : string)
         (st1 : St World) (attrs : list string) (status : string),
    state (self st) = "disabled" ->
    execute peer "show stat" true st = Done output st1 ->
    get_host_stat_line (host (self st)) (stat_lines output) = Ok (Some attrs) ->
    nth_error attrs 17 = Some status ->
    let px := Some (pool_of (self st) attrs) in
    let sc := status =? "MAINT" in
    let line :=
      composite
        (if negb sc && negb (check_mode (self st))
         then disabled_subcommands px (host (self st))
                (Py.truthy (shutdown_sessions (self st)))
         else ["get weight " ++ target px (host (self st))]) in
    exists e st',
      act peer st = Raised e st'
      /\ ((exists r, e = ExitJson (Some (Py.strip r)) (negb sc)
                     /\ sent (trace st')
                        = List.app (sent (trace st1)) [line ++ LF])
          \/ (e = SocketError
              /\ (sent (trace st') = sent (trace st1)
                  \/ sent (trace st')
                     = List.app (sent (trace st1)) [line ++ LF]))).
Proof.
  intros World peer st output st1 attrs status Hs Hexec Hlook H17 px sc line.
  pose proof Hexec as Hdone. apply execute_done in Hdone as [_ Hself].
  cbn [self] in Hself.
  destruct attrs as [|p0 rest]; [discriminate H17|].
  destruct (load_found (self st1) output (p0 :: rest) p0) as
    (h & L & Ha & Hb & Hst & Hh & _ & _ & Hc); [now rewrite Hself | reflexivity |].
  pose proof (load_frame _ _ _ _ L) as (_ & _ & _ & _ & Hss & _).
  rewrite Hself in Hb, Hst, Hh, Hc, Hss. cbn in Hb, Hst, Hh, Hc, Hss.
  rewrite Hs in Hst.
  pose proof (decision_disabled_line h _ _ Hst Ha H17) as D.
  cbv zeta in D. rewrite Hb, Hh, Hc, Hss in D.
  exact (act_second_exchange peer st output st1 h _ _ Hexec L D).
Qed.

Lemma act_disabled_line_witness :
  let p := mkParams (Some "disabled") (Some "web2") None (Some "7") None
             (Some (Py.Str "no")) false in
  reported (main Balancer.peer p pool) = Some (Some "100 (initial 100)", true)
  /\ sent (calls (main Balancer.peer p pool))
     = ["show stat" ++ LF;
        "get weight www/web2; disable server www/web2; shutdown sessions server www/web2"
        ++ LF].
Proof.
  intros p.
  pose (st := mkSt (init "disabled" "web2" p) pool []).
  assert (Hexec : execute Balancer.peer "show stat" true st
                  = Done (Balancer.show_stat pool)
                      (final (execute Balancer.peer "show stat" true st)))
    by (vm_compute; reflexivity).
  assert (Hlook : get_host_stat_line "web2" (stat_lines (Balancer.show_stat pool))
                  = Ok (Some (Py.split comma
                                "www,web2,0,0,0,0,,0,0,0,,0,,0,0,0,0,UP,100,1,0,")))
    by (vm_compute; reflexivity).
  assert (Hrun : act Balancer.peer st
                 = Raised (ExitJson (Some "100 (initial 100)") true)
                     (final (act Balancer.peer st)))
    by (vm_compute; reflexivity).
  destruct (act_disabled_line _ Balancer.peer st _ _ _ "UP"
              eq_refl Hexec Hlook eq_refl)
    as (e & st' & Hact & Hcases).
  rewrite Hrun in Hact. apply raised_inj in Hact as [<- <-].
  change (main Balancer.peer p pool) with (Ran (act Balancer.peer st)).
  rewrite Hrun. cbn [reported calls]. split; [reflexivity|].
  destruct Hcases as [(r & _ & Hsent) | (He & _)]; [|discriminate He].
  rewrite Hsent. vm_compute. reflexivity.
Defined.

(** ** A record that is too short *)

Lemma decision_short h attrs :
  host_attributes h = Some attrs ->
  in_choices ACTION_CHOICES (state h) = true ->
  length attrs <= 17
  \/ (length attrs = 18 /\ state h = "enabled" /\ weight h <> None) ->
  decision h = Err IndexError.
Proof.
  intros Ha Hc Hlen. unfold decision, in_choices, ACTION_CHOICES in *.
  simpl in Hc.
  assert (H18 : nth_error attrs 18 = None) by (apply nth_error_None; lia).
  destruct (String.eqb_spec (state h) "enabled") as [Hs|Hs].
  - unfold is_weight_changed.
    rewrite (get_host_attribute_weight _ _ Ha), H18.
    rewrite (get_host_attribute_status _ _ Ha).
    destruct (weight h) as [r|]; [reflexivity|]. cbn [res_bind].
    destruct Hlen as [Hlen | (_ & _ & Hw)]; [|now elim Hw].
    assert (H17 : nth_error attrs 17 = None) by (apply nth_error_None; lia).
    now rewrite H17.
  - destruct (state h =? "disabled"); [|discriminate Hc].
    destruct Hlen as [Hlen | (_ & He & _)]; [|contradiction].
    assert (H17 : nth_error attrs 17 = None) by (apply nth_error_None; lia).
    now rewrite (get_host_attribute_status _ _ Ha), H17.
Qed.

(** X7. When the record found for the host has fewer than 18 fields, or
    exactly 18 while [enabled] is asked with a weight, the read of the
    status or weight column raises [IndexError]: the run ends with that
    exception after the statistics exchange, the record stored, and no
    second line sent. *)
Theorem short_record :
  forall (World : Type) (peer : Peer World) (st : St World) (output : string)
         (st1 : St World) (attrs : list string),
    in_choices ACTION_CHOICES (state (self st)) = true ->
    execute peer "show stat" true st = Done output st1 ->
    get_host_stat_line (host (self st)) (stat_lines output) = Ok (Some attrs) ->
    length attrs <= 17
    \/ (length attrs = 18 /\ state (self st) = "enabled"
        /\ weight (self st) <> None) ->
    exists st',
      act peer st = Raised IndexError st'
      /\ trace st' = trace st1
      /\ host_attributes (self st') = Some attrs.
Proof.
  intros World peer st output st1 attrs Hc Hexec Hlook Hlen.
  rewrite act_normal_form, Hexec.
  apply execute_done in Hexec as [_ Hself]. cbn [self] in Hself.
  destruct attrs as [|p0 rest].
  { apply get_host_stat_line_first in Hlook as (_ & line & _ & _ & Hp & _).
    symmetry in Hp. now apply split_nonempty in Hp. }
  destruct (load_found (self st1) output (p0 :: rest) p0) as
    (h & -> & Ha & _ & Hst & _ & Hw & _); [now rewrite Hself | reflexivity |].
  rewrite Hself in Hst, Hw. cbn in Hst, Hw.
  rewrite (decision_short h (p0 :: rest) Ha).
  - eexists. split; [reflexivity|]. now split.
  - now rewrite Hst.
  - now rewrite Hst, Hw.
Qed.

Lemma short_record_witness :
  let peer := canned [Chunk ("# pxname,svname,status" ++ LF ++ "www,web1,UP" ++ LF)] in
  let st := mkSt (init "disabled" "web1" (request "disabled" "web1" None None false))
              tt [] in
  exists st',
    act peer st = Raised IndexError st'
    /\ sent (trace st') = ["show stat" ++ LF]
    /\ host_attributes (self st') = Some ["www"; "web1"; "UP"].
Proof.
  intros peer st.
  assert (Hexec : execute peer "show stat" true st
                  = Done ("# pxname,svname,status" ++ LF ++ "www,web1,UP" ++ LF)
                      (final (execute peer "show stat" true st)))
    by (vm_compute; reflexivity).
  assert (Hlook : get_host_stat_line "web1"
                    (stat_lines ("# pxname,svname,status" ++ LF ++ "www,web1,UP" ++ LF))
                  = Ok (Some ["www"; "web1"; "UP"]))
    by (vm_compute; reflexivity).
  destruct (short_record unit peer st _ _ _ eq_refl Hexec Hlook)
    as (st' & Hact & Htrace & Hattrs).
  - left. cbn [length]. lia.
  - exists st'. split; [exact Hact|]. split; [|exact Hattrs].
    rewrite Htrace. vm_compute. reflexivity.
Defined.

(** ** What the reported flag says about the line that was sent *)

Lemma decision_unchanged h subcommands :
  decision h = Ok (false, subcommands) ->
  subcommands = ["get weight " ++ target (backend h) (host h)].
Proof.
  unfold decision.
  destruct (state h =? "enabled").
  - destruct (is_weight_changed (weight h) h) as [wc|]; [|discriminate].
    destruct (is_host_in_maintanence_mode h) as [sc|]; [|discriminate].
    cbn [res_bind]. intros [= Hf <-]. now rewrite Hf.
  - destruct (state h =? "disabled"); [|discriminate].
    destruct (is_host_in_maintanence_mode h) as [sc|]; [|discriminate].
    cbn [res_bind]. intros [= Hf <-]. now rewrite Hf.
Qed.

Lemma decision_changed_live h subcommands :
  decision h = Ok (true, subcommands) ->
  check_mode h = false ->
  exists m rest,
    subcommands = ("get weight " ++ target (backend h) (host h)) :: m :: rest.
Proof.
  unfold decision, enabled_subcommands, disabled_subcommands. intros D Hc.
  rewrite Hc in D. cbn [negb] in D.
  destruct (state h =? "enabled").
  - destruct (is_weight_changed (weight h) h) as [wc|]; [|discriminate].
    destruct (is_host_in_maintanence_mode h) as [sc|]; [|discriminate].
    cbn [res_bind] in D. injection D as Hf <-. rewrite Hf. cbn [andb].
    destruct wc, sc; try discriminate Hf; cbn [List.app]; eauto.
  - destruct (state h =? "disabled"); [|discriminate].
    destruct (is_host_in_maintanence_mode h) as [sc|]; [|discriminate].
    cbn [res_bind] in D. injection D as Hf <-. rewrite Hf. cbn [andb List.app].
    eauto.
Qed.

(** X8. The reported flag tells what reached the balancer. A run that
    reports changed = false sent the statistics query and the [get weight]
    query and nothing else; a live run that reports changed = true sent,
    after the statistics query, one line made of the [get weight] query
    followed by at least one more sub-command. *)
Theorem changed_flag_and_line :
  forall (World : Type) (peer : Peer World) (st : St World)
         (out : option string) (changed : bool) (st' : St World),
    trace st = [] ->
    act peer st = Raised (ExitJson out changed) st' ->
    let query := "get weight " ++ target (backend (self st')) (host (self st)) in
    (changed = false ->
     sent (trace st') = ["show stat" ++ LF; query ++ LF])
    /\ (changed = true -> check_mode (self st) = false ->
        exists m rest,
          sent (trace st')
          = ["show stat" ++ LF; composite (query :: m :: rest) ++ LF]).
Proof.
  intros World peer st out changed st' Hnil H query.
  apply act_shape in H. cbv zeta in H. rewrite Hnil in H. cbn [app] in H.
  destruct H as [[He _] | (k & output & h & o & L & H)]; [discriminate He|].
  pose proof (load_frame _ _ _ _ L) as (_ & Hh & _ & _ & _ & Hc & _).
  cbn in Hh, Hc.
  destruct H as [(-> & _) | [(_ & D & _) | (_ & c & subs & D & H)]].
  { apply load_error in L as [L|L]; discriminate L. }
  { apply decision_error in D as [D|[D|[D _]]]; discriminate D. }
  destruct H as [[He _] | (k2 & out2 & He & Ht & Hb)]; [discriminate He|].
  injection He as _ <-.
  assert (Hsent : sent (trace st') = ["show stat" ++ LF; composite subs ++ LF]).
  { rewrite Ht, sent_app.
    destruct (cycle_counts (socket (self st)) ("show stat" ++ LF) (S k))
      as (_ & _ & ->).
    now destruct (cycle_counts (socket (self st)) (composite subs ++ LF) (S k2))
      as (_ & _ & ->). }
  subst query. rewrite Hb, <- Hh. split.
  - intros ->. now rewrite Hsent, (decision_unchanged h subs D).
  - intros -> Hlive. rewrite <- Hc in Hlive.
    destruct (decision_changed_live h subs D Hlive) as (m & rest & ->).
    now exists m, rest.
Qed.

Lemma changed_flag_and_line_witness :
  let st := fresh "disabled" "web1" (Some "7") None false pool in
  exists st',
    act Balancer.peer st = Raised (ExitJson (Some "1 (initial 1)") false) st'
    /\ sent (trace st') = ["show stat" ++ LF; "get weight www/web1" ++ LF]
    /\ net st' = pool.
Proof.
  intros st.
  pose (st' := final (act Balancer.peer st)).
  assert (Hact : act Balancer.peer st
                 = Raised (ExitJson (Some "1 (initial 1)") false) st')
    by (vm_compute; reflexivity).
  exists st'. split; [exact Hact|]. split; [|vm_compute; reflexivity].
  destruct (changed_flag_and_line _ Balancer.peer st _ _ st' eq_refl Hact)
    as [Hquery _].
  rewrite (Hquery eq_refl). vm_compute. reflexivity.
Defined.

(** ** Bounds on what a run does to the socket *)

Lemma connects_app (a b : list event) :
  connects (a ++ b)%list = (connects a ++ connects b)%list.
Proof.
  induction a as [|e a IH]; [reflexivity|].
  destruct e; simpl; now rewrite IH.
Qed.

Lemma connects_recvs (k : nat) (tail : list event) :
  connects (repeat EvRecv k ++ tail)%list = connects tail.
Proof. induction k as [|k IH]; [reflexivity | exact IH]. Qed.

Lemma connects_cycle (path data : string) (k : nat) :
  connects (cycle path data k) = [path].
Proof. unfold cycle. cbn [connects]. now rewrite connects_recvs. Qed.

Lemma connects_interrupted (path data : string) (tr : list event) :
  interrupted path data tr -> connects tr = [path].
Proof.
  intros [| |k]; try reflexivity.
  cbn [connects]. rewrite <- (app_nil_r (repeat EvRecv (S k))).
  now rewrite connects_recvs.
Qed.

(** X9. A run connects to the configured socket and to no other: every
    [connect] call of [main] is on the path given as [socket], or on
    /var/run/haproxy.sock when none was given. *)
Theorem connects_configured_socket :
  forall (World : Type) (peer : Peer World) (p : Params) (w : World)
         (e : exn) (st' : St World),
    main peer p w = Ran (Raised e st') ->
    Forall (fun path =>
              path = match p_socket p with
                     | Some s => s
                     | None => DEFAULT_SOCKET_LOCATION
                     end)
           (connects (trace st')).
Proof.
  intros World peer p w e st'. unfold main.
  destruct (p_state p) as [s|]; [|discriminate].
  destruct (p_host p) as [h|]; [|discriminate].
  destruct (in_choices ACTION_CHOICES s); [|discriminate].
  intros [= H]. apply act_shape in H. cbv zeta in H.
  cbn [self trace socket init app] in H.
  set (sock := match p_socket p with
               | Some s0 => s0
               | None => DEFAULT_SOCKET_LOCATION
               end) in *.
  destruct H as [(_ & tr & Hi & ->) | (k & output & h0 & o & _ & H)].
  { rewrite (connects_interrupted _ _ _ Hi). now repeat constructor. }
  destruct H as [(_ & -> & _) | [(_ & _ & -> & _) | (_ & c & subs & _ & H)]].
  - rewrite connects_cycle. now repeat constructor.
  - rewrite connects_cycle. now repeat constructor.
  - destruct H as [(_ & tr & Hi & -> & _) | (k2 & out2 & _ & -> & _)];
      rewrite connects_app, connects_cycle.
    + rewrite (connects_interrupted _ _ _ Hi). now repeat constructor.
    + rewrite connects_cycle. now repeat constructor.
Qed.

Lemma connects_configured_socket_witness :
  let p := mkParams (Some "enabled") (Some "web1") None None
             (Some "/run/haproxy/admin.sock") None false in
  connects (calls (main Balancer.peer p pool_elsewhere))
  = ["/run/haproxy/admin.sock"; "/run/haproxy/admin.sock"].
Proof.
  intros p.
  pose (st' := final (act Balancer.peer
                        (mkSt (init "enabled" "web1" p) pool_elsewhere []))).
  assert (Hrun : main Balancer.peer p pool_elsewhere
                 = Ran (Raised (ExitJson (Some "1 (initial 1)") true) st'))
    by (vm_compute; reflexivity).
  pose proof (connects_configured_socket _ Balancer.peer p pool_elsewhere _ _ Hrun)
    as Hall.
  rewrite Hrun. cbn [calls].
  assert (Hlen : length (connects (trace st')) = 2) by (vm_compute; reflexivity).
  destruct (connects (trace st')) as [|a [|b [|c l]]]; try discriminate Hlen.
  inversion Hall as [|? ? Ha Hrest]. inversion Hrest as [|? ? Hb _].
  cbn in Ha, Hb. now rewrite Ha, Hb.
Defined.

(** X10. A run never sends anything before the statistics query and
    never more than one line after it, opens at most two sockets, and
    ends with at most one of them not closed. *)
Theorem act_bounds :
  forall (World : Type) (peer : Peer World) (st : St World)
         (e : exn) (st' : St World),
    trace st = [] ->
    act peer st = Raised e st' ->
    (sent (trace st') = []
     \/ sent (trace st') = ["show stat" ++ LF]
     \/ exists line, sent (trace st') = ["show stat" ++ LF; line])
    /\ opened (trace st') <= 2
    /\ closed (trace st') <= opened (trace st')
    /\ opened (trace st') <= S (closed (trace st')).
Proof.
  intros World peer st e st' Hnil H.
  apply act_shape in H. cbv zeta in H. rewrite Hnil in H. cbn [app] in H.
  destruct H as [(_ & tr & Hi & ->) | (k & output & h & o & _ & H)].
  { apply interrupted_counts in Hi as (-> & -> & [-> | ->]);
      (split; [auto | lia]). }
  pose proof (cycle_counts (socket (self st)) ("show stat" ++ LF) (S k))
    as (Ho & Hc & Hs).
  destruct H as [(_ & -> & _) | [(_ & _ & -> & _) | (_ & c & subs & _ & H)]].
  - rewrite Ho, Hc, Hs. split; [auto | lia].
  - rewrite Ho, Hc, Hs. split; [auto | lia].
  - destruct H as [(_ & tr & Hi & -> & _) | (k2 & out2 & _ & -> & _)];
      rewrite sent_app, opened_app, closed_app, Ho, Hc, Hs.
    + apply interrupted_counts in Hi as (-> & -> & [-> | ->]); cbn [app].
      * split; [now right; left | lia].
      * split; [right; right; now eexists | lia].
    + destruct (cycle_counts (socket (self st)) (composite subs ++ LF) (S k2))
        as (-> & -> & ->). cbn [app].
      split; [right; right; now eexists | lia].
Qed.

Lemma act_bounds_witness :
  let st := fresh "enabled" "web1" None None false pool_elsewhere in
  sent (trace (final (act Balancer.peer st))) = []
  /\ opened (trace (final (act Balancer.peer st))) = 1
  /\ closed (trace (final (act Balancer.peer st))) = 0.
Proof.
  intros st.
  assert (Hact : act Balancer.peer st
                 = Raised SocketError (final (act Balancer.peer st)))
    by (vm_compute; reflexivity).
  destruct (act_bounds _ Balancer.peer st _ _ eq_refl Hact)
    as (_ & _ & Hle & Hge).
  assert (Hc : closed (trace (final (act Balancer.peer st))) = 0)
    by (vm_compute; reflexivity).
  assert (Ho : 1 <= opened (trace (final (act Balancer.peer st))))
    by (vm_compute; lia).
  split; [vm_compute; reflexivity|]. split; [lia | exact Hc].
Defined.

(** ** What is reported *)

(** X11. The text a run reports is the stripped reply to the last line it
    sent: when [act] ends in [exit_json], its last step was a completed
    exchange, entered after the statistics exchange alone, and [stdout] is
    that exchange's reply with surrounding whitespace removed. It is never
    the statistics dump that [get_stat_output] logged before, and never
    the empty list the object starts with. *)
Theorem reported_stdout :
  forall (World : Type) (peer : Peer World) (st : St World)
         (out : option string) (changed : bool) (st' : St World),
    trace st = [] ->
    act peer st = Raised (ExitJson out changed) st' ->
    exists (st1 : St World) (line reply : string),
      sent (trace st1) = ["show stat" ++ LF]
      /\ execute peer line true st1 = Done reply st'
      /\ out = Some (Py.strip reply).
Proof.
  intros World peer st out changed st' Hnil H.
  rewrite act_normal_form in H.
  destruct (execute peer "show stat" true st) as [output st1|e1 st1] eqn:E1.
  2:{ apply execute_raised in E1 as [-> _]. discriminate H. }
  destruct (load (self st1) output) as [h [e0|]] eqn:L.
  { apply load_error in L as [-> | ->]; discriminate H. }
  destruct (decision h) as [[c subs]|e0] eqn:D.
  2:{ apply decision_error in D as [-> | [-> | [-> _]]]; discriminate H. }
  destruct (execute peer (composite subs) true (with_self h st1))
    as [r st2|e2 st2] eqn:E2.
  2:{ apply execute_raised in E2 as [-> _]. discriminate H. }
  injection H as <- _ <-.
  exists (with_self h st1), (composite subs), r.
  apply execute_done in E1 as [[k Ht] _].
  pose proof E2 as Hdone. apply execute_done in Hdone as [_ Hself].
  split; [|split; [exact E2 | now rewrite Hself]].
  cbn [with_self trace]. rewrite Ht, Hnil. cbn [app].
  now destruct (cycle_counts (socket (self st)) ("show stat" ++ LF) (S k))
    as (_ & _ & ->).
Qed.

Lemma reported_stdout_witness :
  let st := fresh "enabled" "web2" (Some "300") None false pool in
  exists reply st',
    act Balancer.peer st = Raised (ExitJson (Some (Py.strip reply)) true) st'
    /\ Py.strip reply
       = "100 (initial 100)" ++ LF ++ LF
         ++ "Absolute weight can only be between 0 and 256 inclusive.".
Proof.
  intros st.
  pose (st' := final (act Balancer.peer st)).
  pose (text := "100 (initial 100)" ++ LF ++ LF
                ++ "Absolute weight can only be between 0 and 256 inclusive.").
  assert (Hact : act Balancer.peer st = Raised (ExitJson (Some text) true) st')
    by (vm_compute; reflexivity).
  destruct (reported_stdout _ Balancer.peer st _ _ st' eq_refl Hact)
    as (st1 & line & reply & _ & _ & Hout).
  exists reply, st'. injection Hout as Hout. rewrite <- Hout.
  split; [exact Hact | reflexivity].
Defined.
